(** * D3L hash generators: MinHash and random projections

    A shallow embedding of [d3l/indexing/hashing/hash_generators.py] and the
    properties of its signatures.

    Conventions of the embedding
    - a numpy array of dtype [uint64] holds integers of [Z] kept in
      [0, 2^64); every arithmetic operation on such arrays is written with
      its wrap-around ([wrap64]);
    - a one-dimensional array (a hash signature, a feature vector) is a
      list; an array whose rank matters (the permutation array, the matrix
      of normals) is an [ndarray]: a shape and the row-major data;
    - a Python exception is a value of [exception]; a call that may raise
      returns a [result];
    - a method that assigns to [self] returns the object after the call next
      to its outcome, so that what a failed call leaves behind is visible;
    - [float64] is Rocq's primitive binary64 float, [float16] is the
      binary16 instance of the Standard Library's [SpecFloat];
    - numpy's seeded generator and its BLAS dot product are interfaces
      ([Numpy]): the code only relies on them being functions. *)

From Stdlib Require Import ZArith String Ascii Bool Lia List Permutation.
From Stdlib.Strings Require Import Byte.
From Stdlib Require Import DecimalString.
From Stdlib Require Import Floats.SpecFloat Floats.PrimFloat.
From Stdlib Require Floats.FloatOps Floats.FloatAxioms.
Import ListNotations.
Local Open Scope Z_scope.

(** ** Module constants *)

Definition MERSENNE_PRIME : Z := 2 ^ 61 - 1.
Definition MAX_HASH : Z := 2 ^ 32 - 1.
Definition HASH_RANGE : Z := 2 ^ 32.

(** ** Exceptions and results *)

Inductive exception : Type :=
| ValueError (msg : string)
| IndexError (msg : string)
| TypeError (msg : string)
| OutOfModel (what : string).

Inductive result (A : Type) : Type :=
| Ok (a : A)
| Raise (e : exception).
Arguments Ok {A} a.
Arguments Raise {A} e.

Definition bind {A B : Type} (r : result A) (k : A -> result B) : result B :=
  match r with
  | Ok a => k a
  | Raise e => Raise e
  end.

Notation "x <- r ;; k" := (bind r (fun x => k))
  (at level 61, r at next level, right associativity).
Notation "' p <- r ;; k" := (bind r (fun x => let p := x in k))
  (at level 61, p pattern, r at next level, right associativity).

Definition raises {A : Type} (r : result A) : bool :=
  match r with
  | Ok _ => false
  | Raise _ => true
  end.

(** [for x in xs: acc = f(acc, x)], where the body may raise. *)
Fixpoint for_each {A B : Type} (f : B -> A -> result B) (xs : list A) (acc : B)
  : result B :=
  match xs with
  | [] => Ok acc
  | x :: rest => acc' <- f acc x ;; for_each f rest acc'
  end.

(** [for v in instances: yield self.hash(v)], consumed to its end: the
    values yielded, in order, and the exception that ended the iteration if
    a call raised (what follows that record is never hashed); next to them
    the object after the last call made. *)
Fixpoint generate_with {S A B : Type} (hash : S -> A -> S * result B)
         (self : S) (instances : list A) : S * (list B * option exception) :=
  match instances with
  | [] => (self, ([], None))
  | v :: rest =>
      match hash self v with
      | (self', Ok h) =>
          let '(self'', (hs, e)) := generate_with hash self' rest in
          (self'', (h :: hs, e))
      | (self', Raise e) => (self', ([], Some e))
      end
  end.

(** The two [ValueError]s of the module, with the source's messages. *)
Definition LengthMismatch : exception :=
  ValueError "Cannot compute Jaccard given MinHash with different numbers of permutation functions".
Definition InvalidShape (hash_size : nat) : exception :=
  ValueError ("The underlying permutation array must have shape: (2, "
              ++ NilEmpty.string_of_uint (Nat.to_uint hash_size) ++ ")").

(** ** Arrays *)

Record ndarray (A : Type) : Type := mk_ndarray {
  shape : list nat;
  data : list A
}.
Arguments mk_ndarray {A} shape data.
Arguments shape {A} n.
Arguments data {A} n.

(** A hash signature: a one-dimensional [uint64] array. *)
Definition signature : Type := list Z.

Definition size_of (sh : list nat) : nat := fold_right Nat.mul 1%nat sh.

Definition well_shaped {A : Type} (a : ndarray A) : Prop :=
  length (data a) = size_of (shape a).

(** [t[i]] on a tuple, for a non-negative index. *)
Definition tuple_get (t : list nat) (i : nat) : result nat :=
  match nth_error t i with
  | Some n => Ok n
  | None => Raise (IndexError "tuple index out of range")
  end.

(** *** Unsigned 64-bit arithmetic *)

Definition wrap64 (z : Z) : Z := z mod 2 ^ 64.

Definition is_uint64 (z : Z) : Prop := 0 <= z < 2 ^ 64.
Definition uint64_array (s : list Z) : Prop := Forall is_uint64 s.

(** The entries of an array of dtype [int64]. *)
Definition int64_array (s : list Z) : Prop :=
  Forall (fun z => - 2 ^ 63 <= z < 2 ^ 63) s.

(** An array of a 64-bit integer dtype, signed or unsigned (the narrower
    integer dtypes lie within). *)
Definition integer_dtype (a : ndarray Z) : Prop :=
  uint64_array (data a) \/ int64_array (data a).

(** The cast of one entry of an integer dtype to [uint64], as C does it. *)
Definition cast_uint64 (z : Z) : Z := if z <? 0 then z + 2 ^ 64 else z.

(** [np.array(a, dtype=np.uint64)] on an array of an integer dtype: same
    shape, every element converted with wrap-around (an [int64] entry -1
    becomes 2^64 - 1).  This is the conversion of arrays whose entries fit
    64 bits; an array of Python objects with an entry outside 64 bits makes
    numpy raise an [OverflowError] instead, and the statements that depend
    on the conversion are made for [integer_dtype] arrays. *)
Definition np_array_uint64 (a : ndarray Z) : ndarray Z :=
  mk_ndarray (shape a) (map wrap64 (data a)).

(** [a.astype(np.uint64)] on a one-dimensional integer array. *)
Definition astype_uint64 (s : list Z) : list Z := map wrap64 s.

(** [np.ones(n, dtype=np.uint64) * k] *)
Definition np_ones_times (n : nat) (k : Z) : list Z := repeat (wrap64 (1 * k)) n.

(** [a * k], [a + b], [a % m] and [np.bitwise_and(a, m)], element by element
    on [uint64] data of one shape. *)
Definition u64_mul_scalar (a : list Z) (k : Z) : list Z :=
  map (fun x => wrap64 (x * k)) a.

Fixpoint u64_add (a b : list Z) : list Z :=
  match a, b with
  | x :: a', y :: b' => wrap64 (x + y) :: u64_add a' b'
  | _, _ => []
  end.

Definition u64_mod_scalar (a : list Z) (m : Z) : list Z :=
  map (fun x => x mod m) a.

Definition np_bitwise_and (a : list Z) (m : Z) : list Z :=
  map (fun x => Z.land x m) a.

Fixpoint minimum_zip (a b : list Z) : list Z :=
  match a, b with
  | x :: a', y :: b' => Z.min x y :: minimum_zip a' b'
  | _, _ => []
  end.

(** [np.minimum(a, b)] on one-dimensional arrays, with numpy's broadcasting:
    equal lengths pair up, a length of one is stretched, anything else does
    not broadcast. *)
Definition np_minimum (a b : list Z) : result (list Z) :=
  if (length a =? length b)%nat then Ok (minimum_zip a b)
  else match a, b with
       | [x], _ => Ok (map (fun y => Z.min x y) b)
       | _, [y] => Ok (map (fun x => Z.min x y) a)
       | _, _ => Raise (ValueError "operands could not be broadcast together")
       end.

(** [left, right = a]: iteration over the first axis, which must have
    exactly two entries. *)
Definition unpack_pair (a : ndarray Z) : result (ndarray Z * ndarray Z) :=
  match shape a with
  | [] => Raise (TypeError "iteration over a 0-d array")
  | n :: rest =>
      let sz := size_of rest in
      if (n <? 2)%nat then Raise (ValueError "not enough values to unpack (expected 2)")
      else if (2 <? n)%nat then Raise (ValueError "too many values to unpack (expected 2)")
      else Ok (mk_ndarray rest (firstn sz (data a)),
               mk_ndarray rest (firstn sz (skipn sz (data a))))
  end.

(** ** mmh3: MurmurHash3, x86 32-bit variant

    [mmh3.hash(key, signed=False)] is the library's MurmurHash3_x86_32 with
    seed 0, read as an unsigned 32-bit integer. *)

Definition wrap32 (z : Z) : Z := z mod 2 ^ 32.

Definition rotl32 (x r : Z) : Z :=
  wrap32 (Z.lor (Z.shiftl x r) (Z.shiftr x (32 - r))).

Definition byte_val (b : byte) : Z := Z.of_N (Byte.to_N b).

Fixpoint le_word (bs : list byte) : Z :=
  match bs with
  | [] => 0
  | b :: rest => Z.lor (byte_val b) (Z.shiftl (le_word rest) 8)
  end.

Definition mix_k1 (k : Z) : Z :=
  wrap32 (rotl32 (wrap32 (k * 0xcc9e2d51)) 15 * 0x1b873593).

Definition mix_h1 (h k : Z) : Z :=
  wrap32 (rotl32 (Z.lxor h (mix_k1 k)) 13 * 5 + 0xe6546b64).

Definition fmix32 (h : Z) : Z :=
  let h := Z.lxor h (Z.shiftr h 16) in
  let h := wrap32 (h * 0x85ebca6b) in
  let h := Z.lxor h (Z.shiftr h 13) in
  let h := wrap32 (h * 0xc2b2ae35) in
  Z.lxor h (Z.shiftr h 16).

Fixpoint murmur_blocks (bs : list byte) (h : Z) : Z :=
  match bs with
  | b0 :: b1 :: b2 :: b3 :: rest =>
      murmur_blocks rest (mix_h1 h (le_word [b0; b1; b2; b3]))
  | [] => h
  | tail => Z.lxor h (mix_k1 (le_word tail))
  end.

Definition murmur3_x86_32 (key : list byte) (seed : Z) : Z :=
  fmix32 (Z.lxor (murmur_blocks key seed) (wrap32 (Z.of_nat (length key)))).

Definition mmh3_hash (key : list byte) : Z := murmur3_x86_32 key 0.

(** [str(value).encode("utf-8", errors="ignore")]: a token is the text of
    the value, kept as the bytes of its UTF-8 encoding. *)
Definition encode_utf8 (value : string) : list byte := list_byte_of_string value.

(** ** numpy services the generators are built on

    [np.random.RandomState(seed)] with the two draws the constructors make,
    and the BLAS kernel behind [np.dot].  A draw returns its value and the
    generator's next state. *)

Class Numpy : Type := {
  RandomState : Type;
  RandomState_seed : Z -> RandomState;
  randint : Z -> Z -> RandomState -> Z * RandomState;
  standard_normal : RandomState -> float * RandomState;
  blas_dot : list float -> list float -> float
}.

(** ** float16, for the similarity score *)

Definition float16 : Type := spec_float.
Definition float16_prec : Z := 11.
Definition float16_emax : Z := 16.

(** [np.float16(n)] for a non-negative Python integer: round to nearest,
    ties to even, overflow to infinity. *)
Definition np_float16 (n : Z) : float16 :=
  binary_normalize float16_prec float16_emax n 0 false.

(** [x / y] on two float16 scalars.  numpy divides in single precision and
    rounds the quotient to float16; 24 bits being at least 2 * 11 + 2, that
    is the correctly rounded float16 quotient. *)
Definition float16_div (x y : float16) : float16 :=
  SFdiv float16_prec float16_emax x y.

Definition float16_leb (x y : float16) : bool := SFleb x y.

(** [0.0 <= x <= 1.0], false on a NaN. *)
Definition in_unit_interval (x : float16) : bool :=
  float16_leb (np_float16 0) x && float16_leb x (np_float16 1).

(** [a == b] on two one-dimensional arrays of one length, and
    [np.count_nonzero] of the outcome. *)
Fixpoint np_equal (a b : list Z) : list bool :=
  match a, b with
  | x :: a', y :: b' => (x =? y) :: np_equal a' b'
  | _, _ => []
  end.

Definition np_count_nonzero (bs : list bool) : nat :=
  length (filter (fun b => b) bs).

(** *** The range of the score

    What is needed to bound the float16 quotient: 1024 times the value of a
    non-negative float16, the shape of a normal float16 of an integer
    between 1 and 65519, and the quotients that do not exceed one, as the
    division passes them to the rounding (mantissa, exponent and location of
    the remainder). *)

Definition float16_scaled (x : float16) : Z :=
  match x with
  | S754_finite false m e => Zpos m * 2 ^ (e + 10)
  | _ => 0
  end.

(** Positive, eleven significant bits, exponent from -10 to 5. *)
Definition float16_normal (x : float16) : bool :=
  match x with
  | S754_finite false m e =>
      (1024 <=? Zpos m) && (Zpos m <? 2048) && (-10 <=? e) && (e <=? 5)
      && (Zdigits2 (Zpos m) =? 11)
  | _ => false
  end.

(** [np.float16(n)] is normal and not below [np.float16(n - 1)]. *)
Definition count_rounds_well (n : Z) : bool :=
  float16_normal (np_float16 n)
  && (float16_scaled (np_float16 (n - 1)) <=? float16_scaled (np_float16 n)).

Definition is_exact (l : location) : bool :=
  match l with loc_Exact => true | _ => false end.

(** The exact quotient [q * 2^e] plus the remainder at location [l] is at
    most one. *)
Definition at_most_one (q e : Z) (l : location) : bool :=
  (q <? 2 ^ (- e)) || ((q =? 2 ^ (- e)) && is_exact l).

Definition rounds_into_unit (q e : Z) (l : location) : bool :=
  implb (at_most_one q e l)
        (in_unit_interval (binary_round_aux float16_prec float16_emax false q e l)).

(** The [n] integers from [lo] on. *)
Fixpoint Zrange (lo : Z) (n : nat) : list Z :=
  match n with
  | O => []
  | S n' => lo :: Zrange (lo + 1) n'
  end.

Definition all_locations : list location :=
  [loc_Exact; loc_Inexact Lt; loc_Inexact Eq; loc_Inexact Gt].

(** ** BaseHashGenerator *)

Record BaseHashGenerator {NP : Numpy} : Type := mk_base {
  _hash_size : nat;
  _seed : Z;
  _generator : RandomState
}.

Definition BaseHashGenerator_init {NP : Numpy} (hash_size : nat) (seed : Z)
  : BaseHashGenerator :=
  mk_base NP hash_size seed (RandomState_seed seed).

Definition similarity_score (left_hashvalues right_hashvalues : signature)
  : result float16 :=
  if negb (length left_hashvalues =? length right_hashvalues)%nat
  then Raise LengthMismatch
  else Ok (float16_div
             (np_float16 (Z.of_nat (np_count_nonzero
                                      (np_equal left_hashvalues right_hashvalues))))
             (np_float16 (Z.of_nat (length left_hashvalues)))).

(** ** MinHashHashGenerator *)

Module MinHashHashGenerator.
Section Generator.
Context {NP : Numpy}.

Record t : Type := mk {
  base : BaseHashGenerator;
  _permutations : ndarray Z
}.

Definition hash_size (self : t) : nat := _hash_size (base self).
Definition seed (self : t) : Z := _seed (base self).
Definition permutations (self : t) : ndarray Z := _permutations self.

(** The list comprehension of the constructor: for each position one draw
    in [1, MERSENNE_PRIME) and then one in [0, MERSENNE_PRIME). *)
Fixpoint draw_pairs (n : nat) (g : RandomState) : list (Z * Z) * RandomState :=
  match n with
  | O => ([], g)
  | S n' =>
      let '(a, g1) := randint 1 MERSENNE_PRIME g in
      let '(b, g2) := randint 0 MERSENNE_PRIME g1 in
      let '(rest, g3) := draw_pairs n' g2 in
      ((a, b) :: rest, g3)
  end.

(** [np.array(pairs, dtype=np.uint64).T]: shape (2, n), all the first
    components and then all the second ones; an empty list gives the
    one-dimensional empty array. *)
Definition pairs_array_T (pairs : list (Z * Z)) : ndarray Z :=
  match pairs with
  | [] => mk_ndarray [0%nat] []
  | _ => mk_ndarray [2%nat; length pairs]
           (map (fun p => wrap64 (fst p)) pairs ++ map (fun p => wrap64 (snd p)) pairs)
  end.

Definition init (hash_size : nat) (seed : Z) : t :=
  let b := BaseHashGenerator_init hash_size seed in
  let '(pairs, g) := draw_pairs hash_size (_generator b) in
  mk (mk_base NP hash_size seed g) (pairs_array_T pairs).

(** [shape[0] != 2 or shape[1] != self.hash_size], with Python's
    left-to-right evaluation of [or]. *)
Definition shape_mismatch (self : t) (sh : list nat) : result bool :=
  s0 <- tuple_get sh 0 ;;
  if negb (s0 =? 2)%nat then Ok true
  else s1 <- tuple_get sh 1 ;; Ok (negb (s1 =? hash_size self)%nat).

Definition set_hash_permutations (self : t) (new_permutations : ndarray Z)
  : t * result unit :=
  match shape_mismatch self (shape new_permutations) with
  | Raise e => (self, Raise e)
  | Ok true => (self, Raise (InvalidShape (hash_size self)))
  | Ok false => (mk (base self) (np_array_uint64 new_permutations), Ok tt)
  end.

(** The coefficients applied to one 32-bit hash value, as the code
    computes them on [uint64] arrays. *)
Definition permute (perm_left perm_right : list Z) (encoded : Z) : list Z :=
  np_bitwise_and
    (u64_mod_scalar (u64_add (u64_mul_scalar perm_left encoded) perm_right)
                    MERSENNE_PRIME)
    MAX_HASH.

(** The body of the loop over [values]. *)
Definition hash_step (perm_left perm_right : ndarray Z)
           (hashvalues : signature) (value : string) : result signature :=
  let encoded := mmh3_hash (encode_utf8 value) in
  let permuted := permute (data perm_left) (data perm_right) encoded in
  match shape perm_left with
  | _ :: _ :: _ =>
      Raise (OutOfModel "np.minimum of a signature and coefficient rows of rank two or more")
  | _ => np_minimum permuted hashvalues
  end.

Definition hash (self : t) (values : list string) (hashvalues : option signature)
  : result signature :=
  let hashvalues :=
    match hashvalues with
    | None => np_ones_times (hash_size self) MAX_HASH
    | Some hv => hv
    end in
  '(perm_left, perm_right) <- unpack_pair (_permutations self) ;;
  hashvalues <- for_each (hash_step perm_left perm_right) values hashvalues ;;
  Ok (astype_uint64 hashvalues).

(** [generate_hashes]; [hash] leaves a MinHash generator as it is. *)
Definition generate_hashes (self : t) (instances : list (list string))
  : list signature * option exception :=
  snd (generate_with (fun g v => (g, hash g v None)) self instances).

(** The PermutationSet invariant: a (2, hash_size) array of [uint64]. *)
Definition wf (self : t) : Prop :=
  shape (_permutations self) = [2%nat; hash_size self]
  /\ well_shaped (_permutations self).

(** The generators a caller obtains with the documented arguments: built
    with a positive [hash_size], then given arrays of shape
    (2, hash_size). *)
Inductive constructed : t -> Prop :=
| constructed_init (hash_size : nat) (seed : Z) :
    (0 < hash_size)%nat -> constructed (init hash_size seed)
| constructed_set (self : t) (new_permutations : ndarray Z) :
    constructed self ->
    shape new_permutations = [2%nat; hash_size self] ->
    well_shaped new_permutations ->
    constructed (fst (set_hash_permutations self new_permutations)).

(** The coefficients of position [i]. *)
Definition perm_a (self : t) (i : nat) : Z := nth i (data (_permutations self)) 0.
Definition perm_b (self : t) (i : nat) : Z :=
  nth (hash_size self + i) (data (_permutations self)) 0.

(** The two rows of a (2, hash_size) permutation array. *)
Definition row_a (self : t) : list Z :=
  firstn (hash_size self) (data (_permutations self)).
Definition row_b (self : t) : list Z :=
  firstn (hash_size self) (skipn (hash_size self) (data (_permutations self))).

(** One pass of the loop of [hash] when nothing raises: the token's
    permuted values, joined to the signature by [minimum_zip]. *)
Definition fold_token (self : t) (hv : signature) (value : string) : signature :=
  minimum_zip (permute (row_a self) (row_b self) (mmh3_hash (encode_utf8 value))) hv.
End Generator.
End MinHashHashGenerator.

(** The permuted value of one position as the specification words it, over
    the integers, and as the code computes it, over [uint64]. *)
Definition permute_exact (a b h : Z) : Z :=
  Z.land ((a * h + b) mod MERSENNE_PRIME) MAX_HASH.

Definition permute_uint64 (a b h : Z) : Z :=
  Z.land (((a * h + b) mod 2 ^ 64) mod MERSENNE_PRIME) MAX_HASH.

(** The permuted value of one token at position [i] of a generator. *)
Definition token_value {NP : Numpy} (g : MinHashHashGenerator.t) (i : nat)
           (value : string) : Z :=
  permute_uint64 (MinHashHashGenerator.perm_a g i) (MinHashHashGenerator.perm_b g i)
                 (mmh3_hash (encode_utf8 value)).

(** The least of [start] and the values of the tokens at position [i]. *)
Definition least_value {NP : Numpy} (g : MinHashHashGenerator.t) (i : nat)
           (values : list string) (start : Z) : Z :=
  fold_left Z.min (map (token_value g i) values) start.

(** What numpy documents of [randint(low, high)]: a value in [low, high). *)
Definition randint_in_bounds (NP : Numpy) : Prop :=
  forall low high s, low < high -> low <= fst (randint low high s) < high.

(** ** Matrices of floats and scipy's sparse matrices *)

(** A two-dimensional [float64] array: its shape and its row-major data. *)
Record matrix : Type := mk_matrix {
  m_rows : nat;
  m_cols : nat;
  m_data : list float
}.

Definition matrix_row (m : matrix) (i : nat) : list float :=
  firstn (m_cols m) (skipn (i * m_cols m) (m_data m)).

Definition matrix_rows (m : matrix) : list (list float) :=
  map (matrix_row m) (seq 0 (m_rows m)).

Inductive sparse_format : Type := CSR | CSC | COO.

(** A sparse matrix: its storage format, its shape, and for every row the
    stored entries as (column, value), in storage order. *)
Record spmatrix : Type := mk_spmatrix {
  sp_format : sparse_format;
  sp_rows : nat;
  sp_cols : nat;
  sp_entries : list (list (nat * float))
}.

Definition isspmatrix_csr (m : spmatrix) : bool :=
  match sp_format m with
  | CSR => true
  | _ => false
  end.

(** [csr_matrix(m)] on a sparse matrix: the same entries, held as CSR. *)
Definition csr_of_sparse (m : spmatrix) : spmatrix :=
  mk_spmatrix CSR (sp_rows m) (sp_cols m) (sp_entries m).

(** [csr_matrix(a)] on a dense matrix: the entries that differ from zero. *)
Definition csr_of_dense (a : matrix) : spmatrix :=
  mk_spmatrix CSR (m_rows a) (m_cols a)
    (map (fun row => filter (fun e => negb (PrimFloat.eqb (snd e) PrimFloat.zero))
                            (combine (seq 0 (length row)) row))
         (matrix_rows a)).

(** [sums[j] += x] on the accumulator of one output row. *)
Fixpoint sums_add (j : nat) (x : float) (sums : list (nat * float))
  : list (nat * float) :=
  match sums with
  | [] => [(j, PrimFloat.add PrimFloat.zero x)]
  | (j', s) :: rest =>
      if (j =? j')%nat then (j', PrimFloat.add s x) :: rest
      else (j', s) :: sums_add j x rest
  end.

(** One row of a CSR product: for each stored (k, x) of the row and each
    stored (j, y) of row k of the right operand, [sums[j] += x * y]. *)
Definition sp_row_times (row : list (nat * float)) (b : spmatrix)
  : list (nat * float) :=
  fold_left
    (fun sums e =>
       fold_left (fun sums' f => sums_add (fst f) (PrimFloat.mul (snd e) (snd f)) sums')
                 (nth (fst e) (sp_entries b) []) sums)
    row [].

(** [a.dot(b)] on two CSR matrices. *)
Definition sp_dot (a b : spmatrix) : result spmatrix :=
  if negb (sp_cols a =? sp_rows b)%nat then Raise (ValueError "dimension mismatch")
  else Ok (mk_spmatrix CSR (sp_rows a) (sp_cols b)
             (map (fun row => sp_row_times row b) (sp_entries a))).

(** [1 if x > 0 else 0] on one row [x] of a sparse matrix with [cols]
    columns: [x > 0] keeps the positive entries, and its truth value is
    defined for a single column only. *)
Definition sparse_row_bit (cols : nat) (x : list (nat * float)) : result Z :=
  if (cols =? 1)%nat
  then Ok (if existsb (fun e => PrimFloat.ltb PrimFloat.zero (snd e)) x then 1 else 0)
  else Raise (ValueError "The truth value of an array with more than one element is ambiguous.").

(** [[f(x) for x in xs]] where [f] may raise. *)
Fixpoint comprehension {A B : Type} (f : A -> result B) (xs : list A)
  : result (list B) :=
  match xs with
  | [] => Ok []
  | x :: rest => y <- f x ;; ys <- comprehension f rest ;; Ok (y :: ys)
  end.

(** [1 if x > 0 else 0] on a float. *)
Definition float_bit (x : float) : Z :=
  if PrimFloat.ltb PrimFloat.zero x then 1 else 0.

(** ** RandomProjectionsHashGenerator *)

Module RandomProjectionsHashGenerator.
Section Generator.
Context {NP : Numpy}.

Record t : Type := mk {
  base : BaseHashGenerator;
  _dimension : nat;
  _normals : matrix;
  _normals_csr : option spmatrix
}.

Definition hash_size (self : t) : nat := _hash_size (base self).
Definition seed (self : t) : Z := _seed (base self).
Definition dimension (self : t) : nat := _dimension self.
Definition normals (self : t) : matrix := _normals self.
Definition normals_csr (self : t) : option spmatrix := _normals_csr self.

(** [permutations]: always the empty array. *)
Definition permutations (self : t) : ndarray Z := mk_ndarray [0%nat] [].

(** The input of [hash]: a dense vector or a scipy sparse matrix. *)
Inductive values : Type :=
| Dense (v : list float)
| Sparse (m : spmatrix).

(** [randn(rows, cols)]: the entries are drawn one after the other, in
    row-major order. *)
Fixpoint draw_normals (n : nat) (g : RandomState) : list float * RandomState :=
  match n with
  | O => ([], g)
  | S n' =>
      let '(x, g1) := standard_normal g in
      let '(rest, g2) := draw_normals n' g1 in
      (x :: rest, g2)
  end.

Definition init (hash_size : nat) (seed : Z) (dimension : nat) : t :=
  let b := BaseHashGenerator_init hash_size seed in
  let '(xs, g) := draw_normals (hash_size * dimension) (_generator b) in
  mk (mk_base NP hash_size seed g) dimension
     (mk_matrix hash_size dimension xs) None.

Definition set_hash_permutations {A : Type} (self : t) (new_permutations : A)
  : t * result unit :=
  (self, Ok tt).

(** [np.dot(a, v)] for a matrix and a one-dimensional vector. *)
Definition np_dot (a : matrix) (v : list float) : result (list float) :=
  if negb (m_cols a =? length v)%nat then Raise (ValueError "shapes not aligned")
  else Ok (map (fun row => blas_dot row v) (matrix_rows a)).

(** [hash]; the second argument of the source is ignored. *)
Definition hash (self : t) (vals : values) (hashvalues : option signature)
  : t * result signature :=
  match vals with
  | Sparse m =>
      let csr :=
        match _normals_csr self with
        | None => csr_of_dense (_normals self)
        | Some c => c
        end in
      let self' := mk (base self) (_dimension self) (_normals self) (Some csr) in
      let m' := if isspmatrix_csr m then m else csr_of_sparse m in
      (self',
       projection <- sp_dot csr m' ;;
       comprehension (sparse_row_bit (sp_cols projection)) (sp_entries projection))
  | Dense v =>
      (self,
       projection <- np_dot (_normals self) v ;;
       Ok (map float_bit projection))
  end.

(** [generate_hashes]: the signatures yielded and the generator after the
    last call. *)
Definition generate_hashes (self : t) (instances : list values)
  : t * (list signature * option exception) :=
  generate_with (fun g v => hash g v None) self instances.

(** [issparse(values)] *)
Definition issparse (vals : values) : bool :=
  match vals with
  | Sparse _ => true
  | Dense _ => false
  end.

(** The object after a sequence of [hash] calls. *)
Definition after_hashes (self : t) (calls : list values) : t :=
  fold_left (fun g v => fst (hash g v None)) calls self.

(** The ProjectionBasis invariant: [hash_size] rows of [dimension]
    entries, and a sparse cache that, once built, is the CSR form of the
    basis. *)
Definition wf (self : t) : Prop :=
  m_rows (_normals self) = hash_size self
  /\ m_cols (_normals self) = _dimension self
  /\ (_normals_csr self = None
      \/ _normals_csr self = Some (csr_of_dense (_normals self))).

(** A sparse matrix that holds a column vector of [n] entries. *)
Definition sparse_column (n : nat) (m : spmatrix) : Prop :=
  sp_rows m = n /\ sp_cols m = 1%nat.

(** An input of the dimension of the generator: a dense vector of
    [dimension] entries or a sparse column of [dimension] rows. *)
Definition fits (self : t) (vals : values) : Prop :=
  match vals with
  | Dense v => length v = dimension self
  | Sparse m => sparse_column (dimension self) m
  end.
End Generator.
End RandomProjectionsHashGenerator.

(** ** A small instance of the numpy interface

    A linear congruential generator and a left-to-right dot product, to run
    the definitions on concrete inputs. *)

Definition lcg_next (s : Z) : Z :=
  (6364136223846793005 * s + 1442695040888963407) mod 2 ^ 64.

Definition lcg_randint (low high : Z) (s : Z) : Z * Z :=
  let s' := lcg_next s in
  (low + (s' / 2 ^ 3) mod (high - low), s').

Definition lcg_normal (s : Z) : float * Z :=
  let s' := lcg_next s in
  (nth (Z.to_nat ((s' / 2 ^ 60) mod 4)) [0.5; -1.25; 2; -0.75]%float PrimFloat.zero, s').

Fixpoint dot_left_to_right (acc : float) (a b : list float) : float :=
  match a, b with
  | x :: a', y :: b' => dot_left_to_right (PrimFloat.add acc (PrimFloat.mul x y)) a' b'
  | _, _ => acc
  end.

Definition lcg_numpy : Numpy := {|
  RandomState := Z;
  RandomState_seed := fun seed => seed;
  randint := lcg_randint;
  standard_normal := lcg_normal;
  blas_dot := dot_left_to_right PrimFloat.zero
|}.

Definition example_minhash : @MinHashHashGenerator.t lcg_numpy :=
  @MinHashHashGenerator.init lcg_numpy 2 12345.

Definition example_projections : @RandomProjectionsHashGenerator.t lcg_numpy :=
  @RandomProjectionsHashGenerator.init lcg_numpy 3 12345 2.

(** A generator of one position whose coefficients were loaded with
    [set_hash_permutations]: a_0 = 2^60 and b_0 = 0, both in the documented
    ranges. *)
Definition loaded_minhash : @MinHashHashGenerator.t lcg_numpy :=
  fst (MinHashHashGenerator.set_hash_permutations
         (@MinHashHashGenerator.init lcg_numpy 1 12345)
         (mk_ndarray [2%nat; 1%nat] [2 ^ 60; 0])).

(** ** The dot product and the sparse form of a vector *)

(** Modelled from the spec: the kernel behind [np.dot], which is numpy's and
    not part of this repository.  The spec has the dense projection computed
    "via ordinary dot products": the products of the entries, added one
    after the other from left to right, starting from 0.0. *)
Definition ordinary_dot (a b : list float) : float :=
  dot_left_to_right PrimFloat.zero a b.

(** The numpy at hand computes [np.dot] as the spec words it. *)
Definition ordinary_kernel (NP : Numpy) : Prop :=
  forall a b, blas_dot a b = ordinary_dot a b.


(** [x != 0] *)
Definition float_nonzero (x : float) : bool :=
  negb (PrimFloat.eqb x PrimFloat.zero).

(** The sparse encoding of a dense vector: [csr_matrix] of the vector as a
    column, which stores the entries that differ from zero. *)
Definition sparse_encode (v : list float) : spmatrix :=
  mk_spmatrix CSR (length v) 1
    (map (fun x => if float_nonzero x then [(0%nat, x)] else []) v).











(** A kernel that adds the products from right to left, as a blocked or
    vectorised kernel may, and a source whose normal draws are all 1.0. *)
Definition dot_right_to_left (a b : list float) : float :=
  fold_right (fun p acc => PrimFloat.add acc (PrimFloat.mul (fst p) (snd p)))
             PrimFloat.zero (combine a b).

Definition backward_numpy : Numpy := {|
  RandomState := Z;
  RandomState_seed := fun seed => seed;
  randint := lcg_randint;
  standard_normal := fun s => (PrimFloat.one, s + 1);
  blas_dot := dot_right_to_left
|}.

(** One hyperplane in three dimensions, with the basis [[1.0, 1.0, 1.0]]. *)
Definition backward_projections : @RandomProjectionsHashGenerator.t backward_numpy :=
  @RandomProjectionsHashGenerator.init backward_numpy 1 0 3.

(** * Properties *)

(** ** Results and loops *)

Lemma for_each_app {A B : Type} (f : B -> A -> result B) (xs ys : list A) (acc : B) :
  for_each f (xs ++ ys) acc = (acc' <- for_each f xs acc ;; for_each f ys acc').
Proof.
  revert acc; induction xs as [|x xs IH]; intros acc; simpl.
  - reflexivity.
  - destruct (f acc x); simpl; auto.
Qed.

(** A loop whose body never raises is a left fold. *)
Lemma for_each_pure {A B : Type} (f : B -> A -> result B) (g : B -> A -> B)
      (P : B -> Prop) (xs : list A) (acc : B) :
  (forall b a, P b -> f b a = Ok (g b a) /\ P (g b a)) ->
  P acc ->
  for_each f xs acc = Ok (fold_left g xs acc) /\ P (fold_left g xs acc).
Proof.
  intros step; revert acc; induction xs as [|x xs IH]; intros acc Hacc; simpl.
  - auto.
  - destruct (step acc x Hacc) as [-> Hnext]; simpl; auto.
Qed.

(** ** Unsigned 64-bit arrays *)

Lemma wrap64_is_uint64 (z : Z) : is_uint64 (wrap64 z).
Proof. unfold is_uint64, wrap64; apply Z.mod_pos_bound; lia. Qed.

Lemma wrap64_id (z : Z) : is_uint64 z -> wrap64 z = z.
Proof. unfold is_uint64, wrap64; intros; apply Z.mod_small; assumption. Qed.

Lemma astype_uint64_id (s : list Z) : uint64_array s -> astype_uint64 s = s.
Proof.
  unfold uint64_array, astype_uint64; induction 1 as [|z s Hz _ IH]; simpl.
  - reflexivity.
  - rewrite wrap64_id by assumption; rewrite IH; reflexivity.
Qed.

Lemma MAX_HASH_is_uint64 : is_uint64 MAX_HASH.
Proof. unfold is_uint64, MAX_HASH; lia. Qed.

Lemma np_ones_times_MAX_HASH (n : nat) : np_ones_times n MAX_HASH = repeat MAX_HASH n.
Proof.
  unfold np_ones_times; rewrite Z.mul_1_l, wrap64_id by apply MAX_HASH_is_uint64.
  reflexivity.
Qed.

Lemma repeat_uint64 (z : Z) (n : nat) : is_uint64 z -> uint64_array (repeat z n).
Proof. intros Hz; unfold uint64_array; induction n; simpl; constructor; auto. Qed.

Lemma land_MAX_HASH_range (x : Z) : 0 <= x -> 0 <= Z.land x MAX_HASH < 2 ^ 32.
Proof.
  intros Hx; change MAX_HASH with (Z.ones 32).
  rewrite Z.land_ones by lia; apply Z.mod_pos_bound; lia.
Qed.

(** ** The 32-bit hash of a token *)

Lemma wrap32_range (z : Z) : 0 <= wrap32 z < 2 ^ 32.
Proof. unfold wrap32; apply Z.mod_pos_bound; lia. Qed.

Lemma lxor_uint32 (a b : Z) :
  0 <= a < 2 ^ 32 -> 0 <= b < 2 ^ 32 -> 0 <= Z.lxor a b < 2 ^ 32.
Proof.
  intros Ha Hb.
  assert (Hnn : 0 <= Z.lxor a b) by (apply Z.lxor_nonneg; lia).
  split; [assumption |].
  destruct (Z.eq_dec (Z.lxor a b) 0) as [-> | Hne]; [lia |].
  apply Z.log2_lt_pow2; [lia |].
  pose proof (Z.log2_lxor a b ltac:(lia) ltac:(lia)) as Hlog.
  assert (Hla : Z.log2 a < 32).
  { destruct (Z.eq_dec a 0) as [-> | ?]; [simpl; lia | apply Z.log2_lt_pow2; lia]. }
  assert (Hlb : Z.log2 b < 32).
  { destruct (Z.eq_dec b 0) as [-> | ?]; [simpl; lia | apply Z.log2_lt_pow2; lia]. }
  lia.
Qed.

Lemma shiftr_uint32 (a n : Z) : 0 <= n -> 0 <= a < 2 ^ 32 -> 0 <= Z.shiftr a n < 2 ^ 32.
Proof.
  intros Hn Ha; rewrite Z.shiftr_div_pow2 by assumption.
  assert (0 < 2 ^ n) by (apply Z.pow_pos_nonneg; lia).
  split; [apply Z.div_pos; lia |].
  apply Z.le_lt_trans with a; [| lia].
  apply Z.div_le_upper_bound; nia.
Qed.

(** [mmh3.hash(key, signed=False)] is a 32-bit value. *)
Lemma mmh3_hash_range (key : list Byte.byte) : 0 <= mmh3_hash key <= MAX_HASH.
Proof.
  unfold mmh3_hash, murmur3_x86_32, fmix32.
  match goal with
  | |- 0 <= Z.lxor ?h (Z.shiftr ?h 16) <= _ =>
      assert (Hh : 0 <= h < 2 ^ 32) by apply wrap32_range;
      pose proof (lxor_uint32 h (Z.shiftr h 16) Hh (shiftr_uint32 h 16 ltac:(lia) Hh))
  end.
  unfold MAX_HASH; lia.
Qed.

(** ** The permuted values *)

Lemma permute_length (pl pr : list Z) (h : Z) :
  length pl = length pr -> length (MinHashHashGenerator.permute pl pr h) = length pl.
Proof.
  unfold MinHashHashGenerator.permute, np_bitwise_and, u64_mod_scalar, u64_mul_scalar.
  rewrite !length_map.
  revert pr; induction pl as [|a pl IH]; intros [|b pr] Hlen; simpl in *;
    try discriminate; try reflexivity.
  rewrite IH by lia; reflexivity.
Qed.

Lemma permute_nth (pl pr : list Z) (h : Z) (i : nat) :
  length pl = length pr -> (i < length pl)%nat ->
  nth i (MinHashHashGenerator.permute pl pr h) 0
  = permute_uint64 (nth i pl 0) (nth i pr 0) h.
Proof.
  unfold MinHashHashGenerator.permute, np_bitwise_and, u64_mod_scalar, u64_mul_scalar.
  revert pr i; induction pl as [|a pl IH]; intros [|b pr] i Hlen Hi; simpl in *;
    try discriminate; try lia.
  destruct i as [|i].
  - unfold permute_uint64, wrap64. rewrite Zplus_mod_idemp_l. reflexivity.
  - apply IH; lia.
Qed.

Lemma permute_uint64_range (a b h : Z) : 0 <= permute_uint64 a b h < 2 ^ 32.
Proof.
  unfold permute_uint64; apply land_MAX_HASH_range.
  apply Z.mod_pos_bound; unfold MERSENNE_PRIME; lia.
Qed.

(** Where the product and the sum stay below 2^64 the code computes the
    value of the integer formula. *)
Lemma permute_uint64_exact (a b h : Z) :
  0 <= a * h + b < 2 ^ 64 -> permute_uint64 a b h = permute_exact a b h.
Proof.
  intros H; unfold permute_uint64, permute_exact; rewrite (Z.mod_small _ _ H); reflexivity.
Qed.

Lemma permute_is_uint64 (pl pr : list Z) (h : Z) :
  uint64_array (MinHashHashGenerator.permute pl pr h).
Proof.
  unfold MinHashHashGenerator.permute, np_bitwise_and, u64_mod_scalar, uint64_array.
  apply Forall_map, Forall_map, Forall_forall; intros x _.
  pose proof (land_MAX_HASH_range (x mod MERSENNE_PRIME)) as H.
  unfold is_uint64.
  assert (0 <= x mod MERSENNE_PRIME)
    by (apply Z.mod_pos_bound; unfold MERSENNE_PRIME; lia).
  specialize (H H0); lia.
Qed.

(** ** Element-wise minimum *)

Lemma minimum_zip_length (a b : list Z) :
  length a = length b -> length (minimum_zip a b) = length b.
Proof.
  revert b; induction a as [|x a IH]; intros [|y b] H; simpl in *;
    try discriminate; auto.
Qed.

Lemma minimum_zip_nth (a b : list Z) (i : nat) :
  length a = length b -> (i < length b)%nat ->
  nth i (minimum_zip a b) 0 = Z.min (nth i a 0) (nth i b 0).
Proof.
  revert b i; induction a as [|x a IH]; intros [|y b] i H Hi; simpl in *;
    try discriminate; try lia.
  destruct i; [reflexivity | apply IH; lia].
Qed.

Lemma minimum_zip_uint64 (a b : list Z) :
  uint64_array a -> uint64_array b -> uint64_array (minimum_zip a b).
Proof.
  unfold uint64_array; intros Ha; revert b.
  induction Ha as [|x a Hx _ IH]; intros b Hb; simpl.
  - constructor.
  - destruct Hb as [|y b Hy Hb]; constructor.
    + unfold is_uint64 in *; lia.
    + apply IH; assumption.
Qed.

Lemma minimum_zip_swap (a b c : list Z) :
  minimum_zip a (minimum_zip b c) = minimum_zip b (minimum_zip a c).
Proof.
  revert b c; induction a as [|x a IH]; intros [|y b] [|z c]; simpl; try reflexivity.
  rewrite IH; f_equal; lia.
Qed.

Lemma np_minimum_same_length (a b : list Z) :
  length a = length b -> np_minimum a b = Ok (minimum_zip a b).
Proof. intros H; unfold np_minimum; rewrite H, Nat.eqb_refl; reflexivity. Qed.

(** ** MinHash: what [hash] computes on a well-formed generator *)

Section MinHashFacts.
Context {NP : Numpy}.
Import MinHashHashGenerator.

Lemma wf_data_length (g : t) :
  wf g -> length (data (_permutations g)) = (2 * hash_size g)%nat.
Proof.
  intros [Hshape Hdata]; unfold well_shaped in Hdata.
  rewrite Hdata, Hshape; simpl; lia.
Qed.

Lemma row_a_length (g : t) : wf g -> length (row_a g) = hash_size g.
Proof.
  intros H; unfold row_a; rewrite length_firstn, (wf_data_length g H); lia.
Qed.

Lemma row_b_length (g : t) : wf g -> length (row_b g) = hash_size g.
Proof.
  intros H; unfold row_b.
  rewrite length_firstn, length_skipn, (wf_data_length g H); lia.
Qed.

Lemma row_a_nth (g : t) (i : nat) :
  (i < hash_size g)%nat -> nth i (row_a g) 0 = perm_a g i.
Proof.
  intros Hi; unfold row_a, perm_a; rewrite nth_firstn.
  apply Nat.ltb_lt in Hi; rewrite Hi; reflexivity.
Qed.

Lemma row_b_nth (g : t) (i : nat) :
  (i < hash_size g)%nat -> nth i (row_b g) 0 = perm_b g i.
Proof.
  intros Hi; unfold row_b, perm_b.
  rewrite nth_firstn, nth_skipn.
  apply Nat.ltb_lt in Hi; rewrite Hi; reflexivity.
Qed.

Lemma unpack_pair_wf (g : t) :
  wf g ->
  unpack_pair (_permutations g)
  = Ok (mk_ndarray [hash_size g] (row_a g), mk_ndarray [hash_size g] (row_b g)).
Proof.
  intros [Hshape _]; unfold unpack_pair, row_a, row_b; rewrite Hshape; simpl.
  rewrite Nat.mul_1_r; reflexivity.
Qed.

Lemma fold_token_length (g : t) (hv : signature) (value : string) :
  wf g -> length hv = hash_size g -> length (fold_token g hv value) = hash_size g.
Proof.
  intros Hwf Hhv; unfold fold_token.
  rewrite minimum_zip_length; [assumption|].
  rewrite permute_length; rewrite row_a_length by assumption;
    [congruence | rewrite row_b_length by assumption; reflexivity].
Qed.

Lemma fold_token_uint64 (g : t) (hv : signature) (value : string) :
  uint64_array hv -> uint64_array (fold_token g hv value).
Proof. intros H; apply minimum_zip_uint64; [apply permute_is_uint64 | assumption]. Qed.

Lemma hash_step_wf (g : t) (hv : signature) (value : string) :
  wf g -> length hv = hash_size g ->
  hash_step (mk_ndarray [hash_size g] (row_a g)) (mk_ndarray [hash_size g] (row_b g))
            hv value
  = Ok (fold_token g hv value).
Proof.
  intros Hwf Hhv; unfold hash_step, fold_token; simpl.
  apply np_minimum_same_length.
  rewrite permute_length; rewrite row_a_length by assumption;
    [congruence | rewrite row_b_length by assumption; reflexivity].
Qed.

Lemma fold_tokens_invariant (g : t) (values : list string) (hv : signature) :
  wf g -> length hv = hash_size g ->
  length (fold_left (fold_token g) values hv) = hash_size g.
Proof.
  intros Hwf; revert hv; induction values as [|v values IH]; intros hv Hhv; simpl.
  - assumption.
  - apply IH, fold_token_length; assumption.
Qed.

Lemma fold_tokens_uint64 (g : t) (values : list string) (hv : signature) :
  uint64_array hv -> uint64_array (fold_left (fold_token g) values hv).
Proof.
  revert hv; induction values as [|v values IH]; intros hv Hhv; simpl.
  - assumption.
  - apply IH, fold_token_uint64; assumption.
Qed.

(** On a well-formed generator and a signature of the right length, the
    loop never raises: [hash] is the fold of [fold_token], cast at the end. *)
Lemma hash_some_wf (g : t) (values : list string) (hv : signature) :
  wf g -> length hv = hash_size g ->
  hash g values (Some hv) = Ok (astype_uint64 (fold_left (fold_token g) values hv)).
Proof.
  intros Hwf Hhv; unfold hash; rewrite (unpack_pair_wf g Hwf); simpl.
  destruct (for_each_pure
              (hash_step (mk_ndarray [hash_size g] (row_a g))
                         (mk_ndarray [hash_size g] (row_b g)))
              (fold_token g) (fun s => length s = hash_size g) values hv) as [-> _].
  - intros b a Hb; split;
      [apply hash_step_wf | apply fold_token_length]; assumption.
  - assumption.
  - reflexivity.
Qed.

Lemma hash_none_wf (g : t) (values : list string) :
  wf g ->
  hash g values None
  = Ok (fold_left (fold_token g) values (repeat MAX_HASH (hash_size g))).
Proof.
  intros Hwf.
  assert (hash g values None = hash g values (Some (repeat MAX_HASH (hash_size g)))) as ->
      by (unfold hash; rewrite np_ones_times_MAX_HASH; reflexivity).
  rewrite hash_some_wf by (auto using repeat_length).
  rewrite astype_uint64_id; [reflexivity|].
  apply fold_tokens_uint64, repeat_uint64, MAX_HASH_is_uint64.
Qed.

(** The constructor and a replacement of the right shape establish the
    invariant. *)
Lemma draw_pairs_length (n : nat) (s : RandomState) : length (fst (draw_pairs n s)) = n.
Proof.
  revert s; induction n as [|n IH]; intros s; simpl; [reflexivity|].
  destruct (randint 1 MERSENNE_PRIME s) as [a s1].
  destruct (randint 0 MERSENNE_PRIME s1) as [b s2].
  specialize (IH s2); destruct (draw_pairs n s2) as [rest s3]; simpl in *; lia.
Qed.

Lemma init_wf (n : nat) (seed : Z) : (0 < n)%nat -> wf (init n seed).
Proof.
  intros Hn; unfold init, BaseHashGenerator_init; simpl.
  pose proof (draw_pairs_length n (RandomState_seed seed)) as Hlen.
  destruct (draw_pairs n (RandomState_seed seed)) as [pairs s]; simpl in Hlen.
  destruct pairs as [|p pairs]; [simpl in Hlen; lia|].
  unfold wf, well_shaped, hash_size, pairs_array_T; simpl; split.
  - rewrite <- Hlen; reflexivity.
  - rewrite length_app; simpl; rewrite !length_map; lia.
Qed.

Lemma set_hash_permutations_wf (g : t) (a : ndarray Z) :
  shape a = [2%nat; hash_size g] -> well_shaped a ->
  wf (fst (set_hash_permutations g a)).
Proof.
  intros Hshape Hdata; unfold set_hash_permutations, shape_mismatch.
  rewrite Hshape; simpl; rewrite Nat.eqb_refl; simpl.
  unfold wf, well_shaped, hash_size in *; simpl.
  rewrite length_map; split; [assumption | rewrite Hdata, Hshape; reflexivity].
Qed.

Lemma set_hash_permutations_hash_size (g : t) (a : ndarray Z) :
  hash_size (fst (set_hash_permutations g a)) = hash_size g.
Proof.
  unfold set_hash_permutations.
  destruct (shape_mismatch g (shape a)) as [[|]|]; reflexivity.
Qed.

Lemma constructed_wf (g : t) : constructed g -> wf g.
Proof.
  induction 1 as [n seed Hn | g a _ _ Hshape Hdata].
  - apply init_wf; assumption.
  - apply set_hash_permutations_wf; assumption.
Qed.

(** Whatever the argument, a call that raises leaves the generator as it
    was. *)
Lemma set_hash_permutations_failure_frame (g : t) (a : ndarray Z) (e : exception) :
  snd (set_hash_permutations g a) = Raise e -> fst (set_hash_permutations g a) = g.
Proof.
  unfold set_hash_permutations.
  destruct (shape_mismatch g (shape a)) as [[|]|]; simpl; intros H;
    [reflexivity | discriminate | reflexivity].
Qed.

(** On two-dimensional arguments the shape test is the documented one. *)
Lemma set_hash_permutations_rank2 (g : t) (rows cols : nat) (xs : list Z) :
  set_hash_permutations g (mk_ndarray [rows; cols] xs)
  = if ((rows =? 2) && (cols =? hash_size g))%nat
    then (mk (base g) (np_array_uint64 (mk_ndarray [rows; cols] xs)), Ok tt)
    else (g, Raise (InvalidShape (hash_size g))).
Proof.
  unfold set_hash_permutations, shape_mismatch; simpl.
  destruct (rows =? 2)%nat; simpl; [|reflexivity].
  destruct (cols =? hash_size g)%nat; reflexivity.
Qed.
End MinHashFacts.

(** ** MinHash: the claims *)

(** On an array of a 64-bit integer dtype the conversion to [uint64] is the
    cast of C, entry by entry. *)
Lemma cast_uint64_wrap (a : ndarray Z) :
  integer_dtype a -> map wrap64 (data a) = map cast_uint64 (data a).
Proof.
  intros H; apply map_ext_in; intros z Hz; unfold wrap64, cast_uint64.
  assert (Hrange : - 2 ^ 63 <= z < 2 ^ 64).
  { destruct H as [H | H]; unfold uint64_array, int64_array in H;
      rewrite Forall_forall in H; specialize (H z Hz); unfold is_uint64 in *; lia. }
  destruct (Z.ltb_spec z 0).
  - rewrite <- (Z.mod_add z 1 (2 ^ 64)) by lia.
    rewrite Z.mul_1_l; apply Z.mod_small; lia.
  - apply Z.mod_small; lia.
Qed.

Section MinHashClaims.
Context {NP : Numpy}.
Import MinHashHashGenerator.

Lemma fold_tokens_permutation (g : t) (A B : list string) (hv : signature) :
  Permutation A B ->
  fold_left (fold_token g) A hv = fold_left (fold_token g) B hv.
Proof.
  intros HP; revert hv; induction HP as [|x A B _ IH|x y A|A B C _ IH1 _ IH2];
    intros hv; simpl.
  - reflexivity.
  - apply IH.
  - f_equal; unfold fold_token; apply minimum_zip_swap.
  - rewrite IH1; apply IH2.
Qed.

(** C1, as the code has it: for a token with 32-bit hash [h], position [i]
    of the running signature becomes
    [min(current[i], (((a_i * h + b_i) mod 2^64) mod MERSENNE_PRIME) AND MAX_HASH)]:
    the product and the sum are unsigned 64-bit operations and wrap around
    before the reduction by [MERSENNE_PRIME]; the 32-bit mask comes last.
    The tokens of one call are processed one after the other in this way. *)
Theorem minhash_update_uint64 (g : t) (value : string) (current : signature) :
  wf g -> length current = hash_size g -> uint64_array current ->
  exists updated,
    hash g [value] (Some current) = Ok updated
    /\ length updated = hash_size g
    /\ (forall i, (i < hash_size g)%nat ->
          nth i updated 0
          = Z.min (nth i current 0)
                  (permute_uint64 (perm_a g i) (perm_b g i)
                                  (mmh3_hash (encode_utf8 value))))
    /\ (forall rest,
          hash g (value :: rest) (Some current) = hash g rest (Some updated)).
Proof.
  intros Hwf Hlen Hu.
  assert (Hlen' : length (fold_token g current value) = hash_size g)
    by (apply fold_token_length; assumption).
  exists (fold_token g current value); repeat split.
  - rewrite hash_some_wf by assumption; simpl.
    rewrite astype_uint64_id by (apply fold_token_uint64; assumption); reflexivity.
  - assumption.
  - intros i Hi; unfold fold_token.
    assert (Hab : length (row_a g) = length (row_b g))
      by (rewrite row_a_length, row_b_length by assumption; reflexivity).
    rewrite minimum_zip_nth.
    + rewrite permute_nth, row_a_nth, row_b_nth; auto using Z.min_comm.
      rewrite row_a_length; assumption.
    + rewrite permute_length, row_a_length by assumption; congruence.
    + lia.
  - intros rest; rewrite !hash_some_wf by assumption; reflexivity.
Qed.

(** C4: hashing [B] on top of the signature of [A] is hashing [A ++ B] in
    one call, and the order of the tokens does not matter; in particular
    [hash(['a'], hash(['b']))] is [hash(['a','b'])]. *)
Theorem minhash_incremental (g : t) (A B : list string) :
  wf g ->
  (s <- hash g A None ;; hash g B (Some s)) = hash g (A ++ B) None
  /\ hash g (A ++ B) None = hash g (B ++ A) None
  /\ (s <- hash g ["b"%string] None ;; hash g ["a"%string] (Some s))
     = hash g ["a"%string; "b"%string] None.
Proof.
  intros Hwf.
  assert (Hinc : forall X Y,
             (s <- hash g X None ;; hash g Y (Some s)) = hash g (X ++ Y) None).
  { intros X Y; rewrite !hash_none_wf by assumption; simpl.
    rewrite hash_some_wf;
      [| assumption | apply fold_tokens_invariant; [assumption | apply repeat_length]].
    rewrite astype_uint64_id
      by (apply fold_tokens_uint64, fold_tokens_uint64, repeat_uint64, MAX_HASH_is_uint64).
    rewrite fold_left_app; reflexivity. }
  assert (Hcomm : forall X Y, hash g (X ++ Y) None = hash g (Y ++ X) None).
  { intros X Y; rewrite !hash_none_wf by assumption; f_equal.
    apply fold_tokens_permutation, Permutation_app_comm. }
  repeat split.
  - apply Hinc.
  - apply Hcomm.
  - rewrite Hinc; apply (Hcomm ["b"%string] ["a"%string]).
Qed.

(** C5: on an empty input [hash] returns the initial signature: the
    existing one when it is given, [hash_size] copies of [MAX_HASH] = 2^32 - 1
    otherwise. *)
Theorem minhash_empty_input (g : t) :
  wf g ->
  hash g [] None = Ok (repeat (2 ^ 32 - 1) (hash_size g))
  /\ forall existing, uint64_array existing -> hash g [] (Some existing) = Ok existing.
Proof.
  intros Hwf; split.
  - rewrite hash_none_wf by assumption; reflexivity.
  - intros existing Hu; unfold hash; rewrite (unpack_pair_wf g Hwf); simpl.
    rewrite astype_uint64_id by assumption; reflexivity.
Qed.

(** C10: [set_hash_permutations] looks at the shape only: every array of
    shape (2, hash_size) and of a 64-bit integer dtype is accepted whatever
    its entries, and what is installed is the array with every entry cast
    to unsigned 64 bits: an entry below zero has 2^64 added, and an entry
    at or above zero is installed as it is, be it 0 or at or above
    [MERSENNE_PRIME]. *)
Theorem set_hash_permutations_shape_only (g : t) (a : ndarray Z) :
  shape a = [2%nat; hash_size g] -> integer_dtype a ->
  set_hash_permutations g a
  = (mk (base g) (mk_ndarray (shape a) (map (fun z => z mod 2 ^ 64) (data a))), Ok tt)
  /\ permutations (fst (set_hash_permutations g a))
     = mk_ndarray [2%nat; hash_size g] (map cast_uint64 (data a))
  /\ uint64_array (data (permutations (fst (set_hash_permutations g a))))
  /\ forall a', shape a' = shape a -> integer_dtype a' ->
               snd (set_hash_permutations g a') = Ok tt.
Proof.
  intros Hshape Hdtype.
  assert (H : forall x, shape x = shape a ->
                        set_hash_permutations g x = (mk (base g) (np_array_uint64 x), Ok tt)).
  { intros x Hx; unfold set_hash_permutations, shape_mismatch.
    rewrite Hx, Hshape; simpl; rewrite Nat.eqb_refl; reflexivity. }
  rewrite (H a eq_refl); unfold permutations, np_array_uint64; simpl.
  split; [reflexivity |].
  split; [rewrite Hshape, (cast_uint64_wrap a Hdtype); reflexivity |].
  split.
  - apply Forall_map, Forall_forall; intros; apply wrap64_is_uint64.
  - intros a' Ha' _; rewrite (H a' Ha'); reflexivity.
Qed.
End MinHashClaims.

(** ** MinHash: the claims on concrete generators *)

Lemma example_minhash_wf : MinHashHashGenerator.wf example_minhash.
Proof. split; reflexivity. Defined.

Lemma minhash_update_uint64_witness :
  MinHashHashGenerator.wf example_minhash
  /\ length [MAX_HASH; 7] = MinHashHashGenerator.hash_size example_minhash
  /\ uint64_array [MAX_HASH; 7]
  /\ exists updated,
      MinHashHashGenerator.hash example_minhash ["a"%string] (Some [MAX_HASH; 7])
      = Ok updated
      /\ length updated = MinHashHashGenerator.hash_size example_minhash
      /\ (forall i, (i < MinHashHashGenerator.hash_size example_minhash)%nat ->
            nth i updated 0
            = Z.min (nth i [MAX_HASH; 7] 0)
                    (permute_uint64 (MinHashHashGenerator.perm_a example_minhash i)
                                    (MinHashHashGenerator.perm_b example_minhash i)
                                    (mmh3_hash (encode_utf8 "a"))))
      /\ (forall rest,
            MinHashHashGenerator.hash example_minhash ("a"%string :: rest)
                                      (Some [MAX_HASH; 7])
            = MinHashHashGenerator.hash example_minhash rest (Some updated)).
Proof.
  assert (Hu : uint64_array [MAX_HASH; 7])
    by (repeat constructor; unfold MAX_HASH; lia).
  split; [exact example_minhash_wf |].
  split; [reflexivity |].
  split; [exact Hu |].
  apply (minhash_update_uint64 example_minhash "a" [MAX_HASH; 7]).
  - exact example_minhash_wf.
  - reflexivity.
  - exact Hu.
Defined.

(** C1, as stated, fails: with a_0 = 2^60, b_0 = 0 and the token "a"
    (whose hash is 1009084850) the product a_0 * h exceeds 2^64; the code
    stores 1 where the reduction of the exact product gives 504542425. *)
Lemma minhash_update_exact_counterexample :
  MinHashHashGenerator.wf loaded_minhash
  /\ MinHashHashGenerator.perm_a loaded_minhash 0 = 2 ^ 60
  /\ MinHashHashGenerator.perm_b loaded_minhash 0 = 0
  /\ mmh3_hash (encode_utf8 "a") = 1009084850
  /\ MinHashHashGenerator.hash loaded_minhash ["a"%string] (Some [MAX_HASH]) = Ok [1]
  /\ Z.min MAX_HASH (permute_exact (2 ^ 60) 0 1009084850) = 504542425
  /\ ~ (exists updated,
          MinHashHashGenerator.hash loaded_minhash ["a"%string] (Some [MAX_HASH])
          = Ok updated
          /\ nth 0 updated 0
             = Z.min (nth 0 [MAX_HASH] 0)
                     (permute_exact (MinHashHashGenerator.perm_a loaded_minhash 0)
                                    (MinHashHashGenerator.perm_b loaded_minhash 0)
                                    (mmh3_hash (encode_utf8 "a")))).
Proof.
  assert (Hrun : MinHashHashGenerator.hash loaded_minhash ["a"%string] (Some [MAX_HASH])
                 = Ok [1]) by (vm_compute; reflexivity).
  repeat split; try (vm_compute; reflexivity); try exact Hrun.
  intros [updated [Hhash Hnth]].
  rewrite Hrun in Hhash; injection Hhash as <-.
  vm_compute in Hnth; discriminate.
Qed.

Lemma minhash_incremental_witness :
  MinHashHashGenerator.wf example_minhash
  /\ (s <- MinHashHashGenerator.hash example_minhash ["x"%string; "y"%string] None ;;
      MinHashHashGenerator.hash example_minhash ["z"%string] (Some s))
     = MinHashHashGenerator.hash example_minhash
         (["x"%string; "y"%string] ++ ["z"%string]) None.
Proof.
  split; [exact example_minhash_wf |].
  apply (minhash_incremental example_minhash ["x"%string; "y"%string] ["z"%string]).
  exact example_minhash_wf.
Defined.

Lemma minhash_empty_input_witness :
  MinHashHashGenerator.wf example_minhash
  /\ MinHashHashGenerator.hash example_minhash [] None
     = Ok (repeat (2 ^ 32 - 1) (MinHashHashGenerator.hash_size example_minhash))
  /\ uint64_array [5; 9]
  /\ MinHashHashGenerator.hash example_minhash [] (Some [5; 9]) = Ok [5; 9].
Proof.
  assert (Hu : uint64_array [5; 9]) by (repeat constructor; lia).
  split; [exact example_minhash_wf |].
  split; [exact (proj1 (minhash_empty_input example_minhash example_minhash_wf)) |].
  split; [exact Hu |].
  exact (proj2 (minhash_empty_input example_minhash example_minhash_wf) [5; 9] Hu).
Defined.

(** An array of shape (2, 2) whose entries break the documented ranges:
    a_0 = 0, a_1 = MERSENNE_PRIME, b_0 = 2^62 and b_1 = 2^64 - 1. *)
Lemma out_of_range_is_integer_dtype :
  integer_dtype (mk_ndarray [2%nat; 2%nat] [0; MERSENNE_PRIME; 2 ^ 62; 2 ^ 64 - 1]).
Proof. left; repeat constructor; discriminate. Defined.

Lemma set_hash_permutations_shape_only_witness :
  shape (mk_ndarray [2%nat; 2%nat] [0; MERSENNE_PRIME; 2 ^ 62; 2 ^ 64 - 1])
  = [2%nat; MinHashHashGenerator.hash_size example_minhash]
  /\ integer_dtype (mk_ndarray [2%nat; 2%nat] [0; MERSENNE_PRIME; 2 ^ 62; 2 ^ 64 - 1])
  /\ MinHashHashGenerator.set_hash_permutations example_minhash
       (mk_ndarray [2%nat; 2%nat] [0; MERSENNE_PRIME; 2 ^ 62; 2 ^ 64 - 1])
     = (MinHashHashGenerator.mk (MinHashHashGenerator.base example_minhash)
          (mk_ndarray [2%nat; 2%nat] [0; 2 ^ 61 - 1; 2 ^ 62; 2 ^ 64 - 1]),
        Ok tt).
Proof.
  split; [reflexivity |].
  split; [exact out_of_range_is_integer_dtype |].
  exact (proj1 (set_hash_permutations_shape_only example_minhash
                  (mk_ndarray [2%nat; 2%nat] [0; MERSENNE_PRIME; 2 ^ 62; 2 ^ 64 - 1])
                  eq_refl out_of_range_is_integer_dtype)).
Defined.

(** C3 on the code: the test reads the first two entries of the shape only.
    Every generator accepts and installs an array of shape
    (2, hash_size, k), which is not (2, hash_size); an array of shape (2,)
    is refused with an [IndexError], not with the error of the shape test.
    So a generator of hash size 2 accepts an array of shape (2, 2, 1),
    while it refuses one of shape (2, 3) as documented. *)
Theorem set_hash_permutations_accepts_rank3 :
  (forall (NP : Numpy) (g : @MinHashHashGenerator.t NP) (k : nat) (xs : list Z),
      shape (mk_ndarray [2%nat; MinHashHashGenerator.hash_size g; k] xs)
      <> [2%nat; MinHashHashGenerator.hash_size g]
      /\ MinHashHashGenerator.set_hash_permutations
           g (mk_ndarray [2%nat; MinHashHashGenerator.hash_size g; k] xs)
         = (MinHashHashGenerator.mk (MinHashHashGenerator.base g)
              (mk_ndarray [2%nat; MinHashHashGenerator.hash_size g; k] (map wrap64 xs)),
            Ok tt))
  /\ (forall (NP : Numpy) (g : @MinHashHashGenerator.t NP) (xs : list Z),
         MinHashHashGenerator.set_hash_permutations g (mk_ndarray [2%nat] xs)
         = (g, Raise (IndexError "tuple index out of range")))
  /\ MinHashHashGenerator.hash_size example_minhash = 2%nat
  /\ MinHashHashGenerator.set_hash_permutations example_minhash
       (mk_ndarray [2%nat; 2%nat; 1%nat] [1; 2; 3; 4])
     = (MinHashHashGenerator.mk (MinHashHashGenerator.base example_minhash)
          (mk_ndarray [2%nat; 2%nat; 1%nat] [1; 2; 3; 4]),
        Ok tt)
  /\ MinHashHashGenerator.set_hash_permutations example_minhash
       (mk_ndarray [2%nat; 3%nat] [1; 2; 3; 4; 5; 6])
     = (example_minhash,
        Raise (ValueError "The underlying permutation array must have shape: (2, 2)")).
Proof.
  split; [| split].
  - intros NP g k xs; split; [simpl; discriminate |].
    unfold MinHashHashGenerator.set_hash_permutations,
      MinHashHashGenerator.shape_mismatch; simpl.
    rewrite Nat.eqb_refl; reflexivity.
  - intros NP g xs; reflexivity.
  - repeat split; vm_compute; reflexivity.
Qed.

(** ** The similarity score *)

Lemma np_equal_length (a b : list Z) :
  length a = length b -> length (np_equal a b) = length a.
Proof.
  revert b; induction a as [|x a IH]; intros [|y b] H; simpl in *;
    try discriminate; auto.
Qed.

Lemma np_count_nonzero_le (bs : list bool) : (np_count_nonzero bs <= length bs)%nat.
Proof.
  unfold np_count_nonzero; induction bs as [|[|] bs IH]; simpl; lia.
Qed.

(** The count that is divided never exceeds the length it is divided by. *)
Lemma match_count_le_length (l r : signature) :
  length l = length r -> (np_count_nonzero (np_equal l r) <= length l)%nat.
Proof.
  intros H; rewrite <- (np_equal_length l r H); apply np_count_nonzero_le.
Qed.

Lemma similarity_score_raises_iff (l r : signature) :
  similarity_score l r = Raise LengthMismatch <-> length l <> length r.
Proof.
  unfold similarity_score; destruct (Nat.eqb_spec (length l) (length r)) as [E|NE]; simpl.
  - split; [discriminate | contradiction].
  - split; [intros _; assumption | reflexivity].
Qed.

(** On signatures of usual sizes the score is the rounded quotient. *)
Lemma similarity_score_examples :
  similarity_score [1; 2; 3] [1; 2] = Raise LengthMismatch
  /\ similarity_score [1; 2; 3] [1; 2; 3] = Ok (np_float16 1)
  /\ similarity_score [1; 2; 3] [4; 5; 6] = Ok (np_float16 0)
  /\ similarity_score [1; 2; 3; 4] [1; 2; 0; 0] = Ok (S754_finite false 1024 (-11)).
Proof. repeat split; vm_compute; reflexivity. Qed.

(** *** The score of signatures of usual sizes lies in the unit interval *)

Lemma Zrange_In (lo : Z) (n : nat) (z : Z) :
  lo <= z < lo + Z.of_nat n -> In z (Zrange lo n).
Proof.
  revert lo; induction n as [|n IH]; intros lo H; simpl.
  - lia.
  - destruct (Z.eq_dec lo z) as [E|NE]; [left; assumption | right; apply IH; lia].
Qed.

Lemma counts_round_well : forallb count_rounds_well (Zrange 1 (Z.to_nat 65519)) = true.
Proof. vm_compute; reflexivity. Qed.

Lemma quotients_round_into_unit :
  forallb (fun e => forallb (fun q => forallb (rounds_into_unit q e) all_locations)
                            (Zrange 0 (Z.to_nat 4096)))
          (Zrange (-24) (Z.to_nat 14)) = true.
Proof. vm_compute; reflexivity. Qed.

Lemma count_rounds_well_at (n : Z) : 1 <= n <= 65519 -> count_rounds_well n = true.
Proof.
  intros H; pose proof counts_round_well as Hall.
  rewrite forallb_forall in Hall; apply Hall, Zrange_In; lia.
Qed.

Lemma rounds_into_unit_at (q e : Z) (l : location) :
  0 <= q < 4096 -> -24 <= e <= -11 -> rounds_into_unit q e l = true.
Proof.
  intros Hq He; pose proof quotients_round_into_unit as Hall.
  rewrite forallb_forall in Hall.
  specialize (Hall e (Zrange_In (-24) (Z.to_nat 14) e ltac:(lia))).
  rewrite forallb_forall in Hall.
  specialize (Hall q (Zrange_In 0 (Z.to_nat 4096) q ltac:(lia))).
  rewrite forallb_forall in Hall; apply Hall.
  destruct l as [|[| |]]; simpl; auto.
Qed.

Lemma float16_scaled_step (c : Z) (k : nat) :
  0 <= c -> c + Z.of_nat k <= 65519 ->
  float16_scaled (np_float16 c) <= float16_scaled (np_float16 (c + Z.of_nat k)).
Proof.
  intros Hc; induction k as [|k IH]; intros Hk.
  - rewrite Z.add_0_r; lia.
  - pose proof (count_rounds_well_at (c + Z.of_nat (S k)) ltac:(lia)) as Hw.
    unfold count_rounds_well in Hw; apply andb_prop in Hw as [_ Hw].
    apply Z.leb_le in Hw.
    replace (c + Z.of_nat (S k) - 1) with (c + Z.of_nat k) in Hw by lia.
    specialize (IH ltac:(lia)); lia.
Qed.

Lemma float16_scaled_monotone (c n : Z) :
  0 <= c <= n -> n <= 65519 ->
  float16_scaled (np_float16 c) <= float16_scaled (np_float16 n).
Proof.
  intros [Hc Hcn] Hn.
  replace n with (c + Z.of_nat (Z.to_nat (n - c))) by lia.
  apply float16_scaled_step; lia.
Qed.

Lemma new_location_zero (n : Z) : new_location n 0 = loc_Exact.
Proof.
  unfold new_location, new_location_even, new_location_odd.
  destruct (Z.even n); reflexivity.
Qed.

Ltac evaluate t := let v := eval vm_compute in t in change t with v.

Ltac evaluate_powers :=
  repeat match goal with
         | H : context [2 ^ ?k] |- _ =>
             let v := eval vm_compute in (2 ^ k) in change (2 ^ k) with v in H
         | |- context [2 ^ ?k] =>
             let v := eval vm_compute in (2 ^ k) in change (2 ^ k) with v
         end.

(** The quotient and the location that the division hands to the rounding,
    for two normal operands the first of which is not above the second. *)
Lemma div_core_at_most_one (mx my : positive) (ex ey : Z) :
  float16_normal (S754_finite false mx ex) = true ->
  float16_normal (S754_finite false my ey) = true ->
  Zpos mx * 2 ^ (ex + 10) <= Zpos my * 2 ^ (ey + 10) ->
  exists q e l,
    SFdiv_core_binary float16_prec float16_emax (Zpos mx) ex (Zpos my) ey = (q, e, l)
    /\ 0 <= q < 4096 /\ -24 <= e <= -11 /\ at_most_one q e l = true.
Proof.
  unfold float16_normal; intros Hx Hy Hle.
  repeat (apply andb_prop in Hx as [Hx ?]); repeat (apply andb_prop in Hy as [Hy ?]).
  repeat match goal with
         | H : (_ <=? _) = true |- _ => apply Z.leb_le in H
         | H : (_ <? _) = true |- _ => apply Z.ltb_lt in H
         | H : (_ =? _) = true |- _ => apply Z.eqb_eq in H
         end.
  assert (Hex : In ex (Zrange (-10) 16)) by (apply Zrange_In; lia).
  assert (Hey : In ey (Zrange (-10) 16)) by (apply Zrange_In; lia).
  unfold SFdiv_core_binary.
  match goal with H : Zdigits2 (Zpos mx) = 11 |- _ => rewrite H; clear H end.
  match goal with H : Zdigits2 (Zpos my) = 11 |- _ => rewrite H; clear H end.
  simpl in Hex, Hey.
  repeat (destruct Hex as [<- | Hex]; [| try contradiction]);
    repeat (destruct Hey as [<- | Hey]; [| try contradiction]);
    try (exfalso; evaluate_powers; lia).
  all: match goal with
       | |- context [Z.min ?a ?b] => evaluate (Z.min a b)
       end;
    match goal with
    | |- context [Z.shiftl _ ?s] => evaluate s
    end;
    cbv beta iota;
    rewrite Z.shiftl_mul_pow2 by lia;
    match goal with
    | |- context [Z.div_eucl ?a ?b] =>
        pose proof (Z_div_mod a b eq_refl) as Hdiv;
        destruct (Z.div_eucl a b) as [? ?]
    end;
    destruct Hdiv as [Hdiv Hr];
    eexists; eexists; eexists; split; [reflexivity |];
    unfold at_most_one; evaluate_powers;
    split; [nia |]; split; [lia |];
    match goal with
    | Hr : 0 <= ?r < _ |- ((?q <? ?c) || _ = true) =>
        destruct (Z.ltb_spec q c) as [Hlt | Hge]; [reflexivity |];
        assert (q = c) by nia; assert (r = 0) by nia; subst;
        rewrite Z.eqb_refl, new_location_zero; reflexivity
    end.
Qed.

Lemma float16_normal_inv (x : float16) :
  float16_normal x = true -> exists m e, x = S754_finite false m e.
Proof. destruct x as [| | |[|] m e]; simpl; try discriminate; eauto. Qed.

(** A count divided by a length it does not exceed, the length being at most
    65519: the float16 quotient lies in [0.0, 1.0]. *)
Lemma float16_div_in_unit_interval (c n : Z) :
  0 <= c <= n -> 1 <= n <= 65519 ->
  in_unit_interval (float16_div (np_float16 c) (np_float16 n)) = true.
Proof.
  intros Hc Hn.
  pose proof (count_rounds_well_at n Hn) as Hwn.
  apply andb_prop in Hwn as [Hnn _].
  destruct (float16_normal_inv _ Hnn) as (my & ey & En).
  destruct (Z.eq_dec c 0) as [-> | Hc0].
  - rewrite En; reflexivity.
  - pose proof (count_rounds_well_at c ltac:(lia)) as Hwc.
    apply andb_prop in Hwc as [Hnc _].
    destruct (float16_normal_inv _ Hnc) as (mx & ex & Ec).
    pose proof (float16_scaled_monotone c n Hc ltac:(lia)) as Hle.
    rewrite Ec, En in *; simpl in Hle.
    destruct (div_core_at_most_one mx my ex ey Hnc Hnn Hle) as (q & e & l & Hcore & Hq & He & H1).
    unfold float16_div, SFdiv; rewrite Hcore; simpl xorb.
    pose proof (rounds_into_unit_at q e l Hq He) as Hround.
    unfold rounds_into_unit in Hround; rewrite H1 in Hround; exact Hround.
Qed.

(** X14: for two signatures of one length, from 1 to 65519 entries, the
    score is a float16 in [0.0, 1.0]. *)
Lemma similarity_score_in_unit_interval (l r : signature) :
  length l = length r -> (1 <= length l)%nat -> Z.of_nat (length l) <= 65519 ->
  exists score, similarity_score l r = Ok score /\ in_unit_interval score = true.
Proof.
  intros Hlen H1 H2; unfold similarity_score.
  rewrite Hlen, Nat.eqb_refl; simpl; eexists; split; [reflexivity |].
  rewrite <- Hlen; apply float16_div_in_unit_interval; [| lia].
  pose proof (match_count_le_length l r Hlen); lia.
Qed.

(** C2 on the code: [similarity_score] raises exactly when the lengths
    differ, and otherwise divides the count of equal positions by the length
    in float16.  From 65520 entries on, [np.float16] of the length is
    infinite: two equal signatures of 65520 entries score NaN, which is not
    in [0.0, 1.0]; so do two empty signatures. *)
Theorem similarity_score_float16_overflow :
  (forall l r, similarity_score l r = Raise LengthMismatch <-> length l <> length r)
  /\ (forall l r, length l = length r ->
        similarity_score l r
        = Ok (float16_div (np_float16 (Z.of_nat (np_count_nonzero (np_equal l r))))
                          (np_float16 (Z.of_nat (length l)))))
  /\ np_float16 65520 = S754_infinity false
  /\ similarity_score (repeat 7 (Z.to_nat 65520)) (repeat 7 (Z.to_nat 65520)) = Ok S754_nan
  /\ similarity_score [] [] = Ok S754_nan
  /\ in_unit_interval S754_nan = false.
Proof.
  split; [exact similarity_score_raises_iff |].
  split.
  - intros l r H; unfold similarity_score; rewrite H, Nat.eqb_refl; reflexivity.
  - repeat split; vm_compute; reflexivity.
Qed.

(** ** Random projections *)

Section ProjectionFacts.
Context {NP : Numpy}.
Import RandomProjectionsHashGenerator.

Lemma matrix_rows_length (m : matrix) : length (matrix_rows m) = m_rows m.
Proof. unfold matrix_rows; rewrite length_map, length_seq; reflexivity. Qed.

Lemma comprehension_total {A B : Type} (f : A -> result B) (g : A -> B) (xs : list A) :
  (forall x, f x = Ok (g x)) -> comprehension f xs = Ok (map g xs).
Proof.
  intros H; induction xs as [|x xs IH]; simpl.
  - reflexivity.
  - rewrite H, IH; reflexivity.
Qed.

(** [hash] only ever writes the sparse cache. *)
Lemma hash_frame (g : t) (v : values) (hv : option signature) :
  base (fst (hash g v hv)) = base g
  /\ _dimension (fst (hash g v hv)) = _dimension g
  /\ _normals (fst (hash g v hv)) = _normals g.
Proof. destruct v; simpl; auto. Qed.

Lemma hash_preserves_wf (g : t) (v : values) (hv : option signature) :
  wf g -> wf (fst (hash g v hv)).
Proof.
  intros (Hr & Hc & Hcache); destruct v as [v|m]; simpl.
  - repeat split; assumption.
  - unfold wf, hash_size; simpl; repeat split; try assumption.
    right; destruct Hcache as [-> | ->]; reflexivity.
Qed.

Lemma init_wf_projections (n : nat) (seed : Z) (d : nat) : wf (init n seed d).
Proof.
  unfold init, BaseHashGenerator_init; simpl.
  destruct (draw_normals (n * d) (RandomState_seed seed)) as [xs s].
  unfold wf, hash_size; simpl; auto.
Qed.

Lemma after_hashes_wf (g : t) (calls : list values) : wf g -> wf (after_hashes g calls).
Proof.
  unfold after_hashes; revert g; induction calls as [|v calls IH]; intros g H; simpl.
  - assumption.
  - apply IH, hash_preserves_wf; assumption.
Qed.

Lemma after_hashes_normals (g : t) (calls : list values) :
  _normals (after_hashes g calls) = _normals g.
Proof.
  unfold after_hashes; revert g; induction calls as [|v calls IH]; intros g; simpl.
  - reflexivity.
  - rewrite IH; apply (hash_frame g v None).
Qed.

(** The signature returned by [hash] is a function of the basis and the
    input: neither the state of the cache nor the ignored argument changes
    it. *)
Lemma hash_outcome (g1 g2 : t) (v : values) (hv1 hv2 : option signature) :
  wf g1 -> wf g2 -> _normals g1 = _normals g2 ->
  snd (hash g1 v hv1) = snd (hash g2 v hv2).
Proof.
  intros (_ & _ & H1) (_ & _ & H2) Hn; destruct v as [v|m]; simpl.
  - rewrite Hn; reflexivity.
  - destruct H1 as [-> | ->], H2 as [-> | ->]; rewrite Hn; reflexivity.
Qed.

Lemma hash_dense_length (g : t) (v : list float) (hv : option signature) :
  wf g -> length v = dimension g ->
  exists sig, snd (hash g (Dense v) hv) = Ok sig /\ length sig = hash_size g.
Proof.
  intros (Hr & Hc & _) Hv; simpl; unfold np_dot, dimension in *.
  rewrite Hc, Hv, Nat.eqb_refl; simpl.
  eexists; split; [reflexivity |].
  rewrite !length_map, matrix_rows_length; assumption.
Qed.

Lemma hash_sparse_length (g : t) (m : spmatrix) (hv : option signature) :
  wf g -> sparse_column (dimension g) m ->
  exists sig, snd (hash g (Sparse m) hv) = Ok sig /\ length sig = hash_size g.
Proof.
  intros (Hr & Hc & Hcache) (Hrows & Hcols); simpl; unfold dimension in *.
  assert (Hcsr : match _normals_csr g with
                 | Some c => c
                 | None => csr_of_dense (_normals g)
                 end = csr_of_dense (_normals g))
    by (destruct Hcache as [-> | ->]; reflexivity).
  rewrite Hcsr; unfold sp_dot; simpl.
  assert (Hm : sp_rows (if isspmatrix_csr m then m else csr_of_sparse m) = sp_rows m
               /\ sp_cols (if isspmatrix_csr m then m else csr_of_sparse m) = sp_cols m)
    by (destruct (isspmatrix_csr m); auto).
  destruct Hm as [-> Hc'].
  rewrite Hc, Hrows, Nat.eqb_refl; simpl; rewrite Hc', Hcols.
  rewrite (comprehension_total (sparse_row_bit 1)
             (fun x => if existsb (fun e => PrimFloat.ltb PrimFloat.zero (snd e)) x
                       then 1 else 0)) by reflexivity.
  eexists; split; [reflexivity |].
  rewrite !length_map, matrix_rows_length; assumption.
Qed.
End ProjectionFacts.

(** ** Random projections: the dense and the sparse path *)

(** *** Zeros in float64 sums and products *)













(** *** One row of the basis against the vector *)











(** The order of the additions matters to the claim: with a kernel that adds
    from right to left, the basis row [1, 1, 1] and the vector
    [2^53, 1, -2^53] give the dense sum (-2^53 + 1) + 2^53 = 1 and the
    sparse sum (2^53 + 1) - 2^53 = 0. *)
Remark dense_and_sparse_under_another_order :
  ~ ordinary_kernel backward_numpy
  /\ snd (RandomProjectionsHashGenerator.hash
            backward_projections
            (RandomProjectionsHashGenerator.Dense
               [9007199254740992; 1; -9007199254740992]%float) None)
     = Ok [1]
  /\ snd (RandomProjectionsHashGenerator.hash
            backward_projections
            (RandomProjectionsHashGenerator.Sparse
               (sparse_encode [9007199254740992; 1; -9007199254740992]%float)) None)
     = Ok [0].
Proof.
  split; [| split; reflexivity].
  intros H.
  specialize (H [1; 1; 1]%float [9007199254740992; 1; -9007199254740992]%float).
  vm_compute in H; discriminate H.
Qed.

Section DenseAndSparse.
Context {NP : Numpy}.
Import RandomProjectionsHashGenerator.

End DenseAndSparse.

(** ** Both generators: the claims *)

Section GeneratorClaims.
Context {NP : Numpy}.

(** C6: every signature produced by [hash] has exactly [hash_size] entries:
    for MinHash over any list of tokens, started afresh or from a signature
    of [hash_size] entries; for random projections over any vector of
    [dimension] entries, dense or sparse. *)
Theorem signature_length :
  (forall (g : MinHashHashGenerator.t) (values : list string) (hv : option signature),
      MinHashHashGenerator.wf g ->
      (hv = None
       \/ exists s, hv = Some s /\ length s = MinHashHashGenerator.hash_size g) ->
      exists sig, MinHashHashGenerator.hash g values hv = Ok sig
                  /\ length sig = MinHashHashGenerator.hash_size g)
  /\ (forall (g : RandomProjectionsHashGenerator.t) (v : list float)
             (hv : option signature),
         RandomProjectionsHashGenerator.wf g ->
         length v = RandomProjectionsHashGenerator.dimension g ->
         exists sig,
           snd (RandomProjectionsHashGenerator.hash
                  g (RandomProjectionsHashGenerator.Dense v) hv) = Ok sig
           /\ length sig = RandomProjectionsHashGenerator.hash_size g)
  /\ (forall (g : RandomProjectionsHashGenerator.t) (m : spmatrix)
             (hv : option signature),
         RandomProjectionsHashGenerator.wf g ->
         RandomProjectionsHashGenerator.sparse_column
           (RandomProjectionsHashGenerator.dimension g) m ->
         exists sig,
           snd (RandomProjectionsHashGenerator.hash
                  g (RandomProjectionsHashGenerator.Sparse m) hv) = Ok sig
           /\ length sig = RandomProjectionsHashGenerator.hash_size g).
Proof.
  split; [| split].
  - intros g values hv Hwf [-> | [s [-> Hs]]].
    + rewrite hash_none_wf by assumption; eexists; split; [reflexivity |].
      apply fold_tokens_invariant; [assumption | apply repeat_length].
    + rewrite hash_some_wf by assumption; eexists; split; [reflexivity |].
      unfold astype_uint64; rewrite length_map.
      apply fold_tokens_invariant; assumption.
  - intros g v hv; apply hash_dense_length.
  - intros g m hv; apply hash_sparse_length.
Qed.

(** C7: two generators of one variant built from the same [hash_size] and
    [seed] (and [dimension]) hold the same permutations, respectively the
    same basis, and return the same signature on the same input, whatever
    each of them has hashed before. *)
Theorem generators_deterministic (hash_size1 hash_size2 : nat) (seed1 seed2 : Z)
        (dimension1 dimension2 : nat) :
  hash_size1 = hash_size2 -> seed1 = seed2 -> dimension1 = dimension2 ->
  (MinHashHashGenerator.permutations (MinHashHashGenerator.init hash_size1 seed1)
   = MinHashHashGenerator.permutations (MinHashHashGenerator.init hash_size2 seed2)
   /\ forall values hv,
       MinHashHashGenerator.hash (MinHashHashGenerator.init hash_size1 seed1) values hv
       = MinHashHashGenerator.hash (MinHashHashGenerator.init hash_size2 seed2) values hv)
  /\ (RandomProjectionsHashGenerator.normals
        (RandomProjectionsHashGenerator.init hash_size1 seed1 dimension1)
      = RandomProjectionsHashGenerator.normals
          (RandomProjectionsHashGenerator.init hash_size2 seed2 dimension2)
      /\ forall calls1 calls2 v hv1 hv2,
          snd (RandomProjectionsHashGenerator.hash
                 (RandomProjectionsHashGenerator.after_hashes
                    (RandomProjectionsHashGenerator.init hash_size1 seed1 dimension1)
                    calls1) v hv1)
          = snd (RandomProjectionsHashGenerator.hash
                   (RandomProjectionsHashGenerator.after_hashes
                      (RandomProjectionsHashGenerator.init hash_size2 seed2 dimension2)
                      calls2) v hv2)).
Proof.
  intros <- <- <-; split; [split; reflexivity |].
  split; [reflexivity |].
  intros calls1 calls2 v hv1 hv2; apply hash_outcome.
  - apply after_hashes_wf, init_wf_projections.
  - apply after_hashes_wf, init_wf_projections.
  - rewrite !after_hashes_normals; reflexivity.
Qed.

(** C9: on a random-projection generator [set_hash_permutations] does
    nothing: it returns without raising, whatever it is given, and the
    generator is the same afterwards, field by field. *)
Theorem projections_set_hash_permutations_noop
        (A : Type) (g : RandomProjectionsHashGenerator.t) (new_permutations : A) :
  let after := RandomProjectionsHashGenerator.set_hash_permutations g new_permutations in
  snd after = Ok tt
  /\ fst after = g
  /\ RandomProjectionsHashGenerator.normals (fst after)
     = RandomProjectionsHashGenerator.normals g
  /\ RandomProjectionsHashGenerator.normals_csr (fst after)
     = RandomProjectionsHashGenerator.normals_csr g
  /\ RandomProjectionsHashGenerator.hash_size (fst after)
     = RandomProjectionsHashGenerator.hash_size g
  /\ RandomProjectionsHashGenerator.seed (fst after)
     = RandomProjectionsHashGenerator.seed g
  /\ RandomProjectionsHashGenerator.dimension (fst after)
     = RandomProjectionsHashGenerator.dimension g.
Proof. simpl; repeat split; reflexivity. Qed.
End GeneratorClaims.

(** ** Both generators: the claims on concrete generators *)

Lemma example_projections_wf : RandomProjectionsHashGenerator.wf example_projections.
Proof. exact (@init_wf_projections lcg_numpy 3 12345 2). Defined.



Lemma signature_length_witness :
  MinHashHashGenerator.wf example_minhash
  /\ (exists sig,
         MinHashHashGenerator.hash example_minhash ["a"%string; "b"%string] None = Ok sig
         /\ length sig = MinHashHashGenerator.hash_size example_minhash)
  /\ RandomProjectionsHashGenerator.wf example_projections
  /\ length [1; -3]%float = RandomProjectionsHashGenerator.dimension example_projections
  /\ (exists sig,
         snd (RandomProjectionsHashGenerator.hash
                example_projections
                (RandomProjectionsHashGenerator.Dense [1; -3]%float) None) = Ok sig
         /\ length sig = RandomProjectionsHashGenerator.hash_size example_projections)
  /\ RandomProjectionsHashGenerator.sparse_column
       (RandomProjectionsHashGenerator.dimension example_projections)
       (mk_spmatrix COO 2 1 [[(0%nat, 1%float)]; [(0%nat, (-3)%float)]])
  /\ (exists sig,
         snd (RandomProjectionsHashGenerator.hash
                example_projections
                (RandomProjectionsHashGenerator.Sparse
                   (mk_spmatrix COO 2 1 [[(0%nat, 1%float)]; [(0%nat, (-3)%float)]]))
                None) = Ok sig
         /\ length sig = RandomProjectionsHashGenerator.hash_size example_projections).
Proof.
  pose proof (@signature_length lcg_numpy) as (Hmin & Hdense & Hsparse).
  split; [exact example_minhash_wf |].
  split; [apply (Hmin example_minhash); [exact example_minhash_wf | left; reflexivity] |].
  split; [exact example_projections_wf |].
  split; [reflexivity |].
  split; [apply (Hdense example_projections);
          [exact example_projections_wf | reflexivity] |].
  split; [split; reflexivity |].
  apply (Hsparse example_projections);
    [exact example_projections_wf | split; reflexivity].
Defined.

Lemma generators_deterministic_witness :
  (2 = 2)%nat /\ 12345 = 12345 /\ (3 = 3)%nat
  /\ snd (RandomProjectionsHashGenerator.hash
            (RandomProjectionsHashGenerator.after_hashes
               (@RandomProjectionsHashGenerator.init lcg_numpy 2 12345 3)
               [RandomProjectionsHashGenerator.Sparse
                  (mk_spmatrix COO 3 1 [[(0%nat, 1%float)]; []; [(0%nat, 2%float)]])])
            (RandomProjectionsHashGenerator.Dense [1; 0; 2]%float) None)
     = snd (RandomProjectionsHashGenerator.hash
              (RandomProjectionsHashGenerator.after_hashes
                 (@RandomProjectionsHashGenerator.init lcg_numpy 2 12345 3) [])
              (RandomProjectionsHashGenerator.Dense [1; 0; 2]%float) (Some [0; 0])).
Proof.
  repeat (split; [reflexivity |]).
  apply (proj2 (proj2 (@generators_deterministic lcg_numpy 2 2 12345 12345 3 3
                         eq_refl eq_refl eq_refl))).
Defined.

(** * Further properties *)

(** ** Least values *)

Lemma fold_min_min (xs : list Z) (a b : Z) :
  fold_left Z.min xs (Z.min a b) = Z.min a (fold_left Z.min xs b).
Proof.
  revert b; induction xs as [|x xs IH]; intros b; simpl.
  - reflexivity.
  - rewrite <- Z.min_assoc; apply IH.
Qed.

Lemma fold_min_le_start (xs : list Z) (x : Z) : fold_left Z.min xs x <= x.
Proof.
  revert x; induction xs as [|y xs IH]; intros x; simpl.
  - lia.
  - specialize (IH (Z.min x y)); lia.
Qed.

Lemma fold_min_le_elem (xs : list Z) (x y : Z) : In y xs -> fold_left Z.min xs x <= y.
Proof.
  revert x; induction xs as [|z xs IH]; intros x []; simpl.
  - subst; pose proof (fold_min_le_start xs (Z.min x y)); lia.
  - apply IH; assumption.
Qed.

Lemma fold_min_attained (xs : list Z) (x : Z) :
  fold_left Z.min xs x = x \/ In (fold_left Z.min xs x) xs.
Proof.
  revert x; induction xs as [|y xs IH]; intros x; simpl.
  - left; reflexivity.
  - destruct (IH (Z.min x y)) as [E | Hin]; [| right; right; assumption].
    rewrite E; destruct (Z.min_spec x y) as [[_ ->] | [_ ->]]; auto.
Qed.

Lemma fold_min_app (xs ys : list Z) (x : Z) :
  fold_left Z.min (xs ++ ys) x = Z.min (fold_left Z.min xs x) (fold_left Z.min ys x).
Proof.
  rewrite fold_left_app.
  rewrite <- (Z.min_l (fold_left Z.min xs x) x) at 1 by apply fold_min_le_start.
  apply fold_min_min.
Qed.

(** The least value over a list is decreasing in the set of its elements. *)
Lemma fold_min_incl (xs ys : list Z) (x : Z) :
  incl xs ys -> fold_left Z.min ys x <= fold_left Z.min xs x.
Proof.
  intros Hincl; destruct (fold_min_attained xs x) as [-> | Hin].
  - apply fold_min_le_start.
  - apply fold_min_le_elem, Hincl, Hin.
Qed.

Section MinHashFurther.
Context {NP : Numpy}.
Import MinHashHashGenerator.

Lemma fold_token_nth (g : t) (hv : signature) (value : string) (i : nat) :
  wf g -> length hv = hash_size g -> (i < hash_size g)%nat ->
  nth i (fold_token g hv value) 0 = Z.min (nth i hv 0) (token_value g i value).
Proof.
  intros Hwf Hlen Hi; unfold fold_token, token_value.
  assert (Hab : length (row_a g) = length (row_b g))
    by (rewrite row_a_length, row_b_length by assumption; reflexivity).
  rewrite minimum_zip_nth.
  - rewrite permute_nth, row_a_nth, row_b_nth; auto using Z.min_comm.
    rewrite row_a_length; assumption.
  - rewrite permute_length, row_a_length by assumption; congruence.
  - lia.
Qed.

Lemma fold_tokens_nth (g : t) (values : list string) (hv : signature) (i : nat) :
  wf g -> length hv = hash_size g -> (i < hash_size g)%nat ->
  nth i (fold_left (fold_token g) values hv) 0 = least_value g i values (nth i hv 0).
Proof.
  intros Hwf; revert hv; induction values as [|v values IH]; intros hv Hlen Hi.
  - reflexivity.
  - unfold least_value in *; simpl.
    rewrite IH by (auto using fold_token_length).
    rewrite fold_token_nth by assumption; reflexivity.
Qed.

Lemma least_value_incl (g : t) (i : nat) (A B : list string) (start : Z) :
  incl A B -> least_value g i B start <= least_value g i A start.
Proof.
  intros Hincl; unfold least_value; apply fold_min_incl.
  intros z Hz; apply in_map_iff in Hz as (v & <- & Hv).
  apply in_map, Hincl, Hv.
Qed.

(** Two signatures of a generator that agree position by position are
    equal. *)
Lemma signature_ext (n : nat) (s1 s2 : signature) :
  length s1 = n -> length s2 = n ->
  (forall i, (i < n)%nat -> nth i s1 0 = nth i s2 0) -> s1 = s2.
Proof.
  intros H1 H2 Hnth; apply (nth_ext s1 s2 0 0); [congruence |].
  intros i Hi; apply Hnth; lia.
Qed.

Lemma fold_tokens_same_set (g : t) (A B : list string) (hv : signature) :
  wf g -> length hv = hash_size g -> incl A B -> incl B A ->
  fold_left (fold_token g) A hv = fold_left (fold_token g) B hv.
Proof.
  intros Hwf Hlen HAB HBA.
  apply (signature_ext (hash_size g)); try (apply fold_tokens_invariant; assumption).
  intros i Hi; rewrite !fold_tokens_nth by assumption.
  pose proof (least_value_incl g i A B (nth i hv 0) HAB).
  pose proof (least_value_incl g i B A (nth i hv 0) HBA).
  lia.
Qed.

Lemma fold_token_entries (g : t) (hv : signature) (value : string) :
  Forall (fun z => 0 <= z) hv ->
  Forall (fun z => 0 <= z <= MAX_HASH) (fold_token g hv value).
Proof.
  unfold fold_token.
  generalize (permute_is_uint64 (row_a g) (row_b g) (mmh3_hash (encode_utf8 value))).
  assert (Hp : Forall (fun z => z <= MAX_HASH)
                      (permute (row_a g) (row_b g) (mmh3_hash (encode_utf8 value)))).
  { unfold permute, np_bitwise_and, u64_mod_scalar.
    apply Forall_map, Forall_map, Forall_forall; intros x _.
    assert (0 <= x mod MERSENNE_PRIME)
      by (apply Z.mod_pos_bound; unfold MERSENNE_PRIME; lia).
    pose proof (land_MAX_HASH_range (x mod MERSENNE_PRIME) ltac:(assumption)) as Hr.
    change (2 ^ 32) with (MAX_HASH + 1) in Hr; lia. }
  revert Hp; generalize (permute (row_a g) (row_b g) (mmh3_hash (encode_utf8 value))).
  intros p Hp Hu Hhv; revert hv Hhv.
  induction p as [|x p IH]; intros [|y hv] Hhv; simpl; try constructor.
  - inversion Hp; inversion Hu; inversion Hhv; subst.
    unfold is_uint64 in *; lia.
  - inversion Hp; inversion Hu; inversion Hhv; subst; apply IH; assumption.
Qed.

Lemma entries_weaken (s : signature) :
  Forall (fun z => 0 <= z <= MAX_HASH) s -> Forall (fun z => 0 <= z) s.
Proof. apply Forall_impl; intros; lia. Qed.

Lemma fold_tokens_entries (g : t) (values : list string) (hv : signature) :
  Forall (fun z => 0 <= z <= MAX_HASH) hv ->
  Forall (fun z => 0 <= z <= MAX_HASH) (fold_left (fold_token g) values hv).
Proof.
  revert hv; induction values as [|v values IH]; intros hv H; simpl.
  - assumption.
  - apply IH, fold_token_entries, entries_weaken, H.
Qed.

Lemma uint64_array_nonneg (s : signature) : uint64_array s -> Forall (fun z => 0 <= z) s.
Proof. apply Forall_impl; unfold is_uint64; intros; lia. Qed.
End MinHashFurther.

(** ** MinHash: signatures as least values *)

Section MinHashSignatures.
Context {NP : Numpy}.
Import MinHashHashGenerator.

(** X1: position [i] of a MinHash signature is the least of the permuted
    values of the tokens at that position, and of [MAX_HASH] for a fresh
    signature, respectively of the entry of the signature that is updated. *)
Theorem minhash_signature_least_values (g : t) (values : list string) :
  wf g ->
  (exists sig,
      hash g values None = Ok sig /\ length sig = hash_size g
      /\ forall i, (i < hash_size g)%nat ->
           nth i sig 0 = least_value g i values MAX_HASH)
  /\ (forall existing,
         length existing = hash_size g -> uint64_array existing ->
         exists sig,
           hash g values (Some existing) = Ok sig /\ length sig = hash_size g
           /\ forall i, (i < hash_size g)%nat ->
                nth i sig 0 = least_value g i values (nth i existing 0)).
Proof.
  intros Hwf; split.
  - rewrite hash_none_wf by assumption; eexists; split; [reflexivity |].
    split; [apply fold_tokens_invariant; auto using repeat_length |].
    intros i Hi; rewrite fold_tokens_nth by (auto using repeat_length).
    rewrite nth_repeat_lt by assumption; reflexivity.
  - intros existing Hlen Hu; rewrite hash_some_wf by assumption.
    rewrite astype_uint64_id by (apply fold_tokens_uint64; assumption).
    eexists; split; [reflexivity |].
    split; [apply fold_tokens_invariant; assumption |].
    intros i Hi; apply fold_tokens_nth; assumption.
Qed.

(** X2: the entries of a MinHash signature are 32-bit values: always for a
    signature started afresh, and as soon as one token is hashed for a
    signature that is updated. *)
Theorem minhash_entries_are_32_bit (g : t) (values : list string) :
  wf g ->
  (forall sig, hash g values None = Ok sig ->
               Forall (fun z => 0 <= z <= MAX_HASH) sig)
  /\ (forall existing sig,
         length existing = hash_size g -> uint64_array existing -> values <> [] ->
         hash g values (Some existing) = Ok sig ->
         Forall (fun z => 0 <= z <= MAX_HASH) sig).
Proof.
  intros Hwf; split.
  - intros sig; rewrite hash_none_wf by assumption; intros [= <-].
    apply fold_tokens_entries, Forall_forall; intros z Hz.
    apply repeat_spec in Hz; subst; unfold MAX_HASH; lia.
  - intros existing sig Hlen Hu Hne; rewrite hash_some_wf by assumption.
    rewrite astype_uint64_id by (apply fold_tokens_uint64; assumption).
    intros [= <-]; destruct values as [|v values]; [contradiction |]; simpl.
    apply fold_tokens_entries, fold_token_entries, uint64_array_nonneg, Hu.
Qed.

(** X3: tokens only lower a signature: no entry of an updated signature is
    above the entry it replaces, and the fresh signature of a list of tokens
    is nowhere above that of a part of the list. *)
Theorem minhash_tokens_only_lower (g : t) (A B : list string) (existing : signature) :
  wf g -> length existing = hash_size g -> uint64_array existing -> incl A B ->
  exists updated sA sB,
    hash g A (Some existing) = Ok updated
    /\ hash g A None = Ok sA /\ hash g B None = Ok sB
    /\ forall i, (i < hash_size g)%nat ->
         nth i updated 0 <= nth i existing 0 /\ nth i sB 0 <= nth i sA 0.
Proof.
  intros Hwf Hlen Hu Hincl.
  rewrite hash_some_wf, !hash_none_wf by assumption.
  rewrite astype_uint64_id by (apply fold_tokens_uint64; assumption).
  do 3 eexists; repeat split; try reflexivity.
  - rewrite fold_tokens_nth by assumption; apply fold_min_le_start.
  - rewrite !fold_tokens_nth by (auto using repeat_length).
    apply least_value_incl; assumption.
Qed.

(** X4: the signature of two lists of tokens put together is the
    element-wise minimum of their signatures. *)
Theorem minhash_union_is_minimum (g : t) (A B : list string) :
  wf g ->
  (sA <- hash g A None ;; sB <- hash g B None ;; np_minimum sA sB)
  = hash g (A ++ B) None.
Proof.
  intros Hwf; rewrite !hash_none_wf by assumption; simpl.
  assert (Hinit : length (repeat MAX_HASH (hash_size g)) = hash_size g)
    by apply repeat_length.
  pose proof (fold_tokens_invariant g A _ Hwf Hinit) as HA.
  pose proof (fold_tokens_invariant g B _ Hwf Hinit) as HB.
  rewrite np_minimum_same_length by congruence.
  apply (f_equal (@Ok signature)), (signature_ext (hash_size g)).
  - rewrite minimum_zip_length; congruence.
  - apply fold_tokens_invariant; assumption.
  - intros i Hi; rewrite minimum_zip_nth by (congruence || lia).
    rewrite !fold_tokens_nth by assumption.
    unfold least_value; rewrite map_app; symmetry; apply fold_min_app.
Qed.

(** X5: a MinHash signature depends on the set of the tokens only: two lists
    with the same tokens, in whatever order and however often repeated, give
    the same signature, afresh or on top of an existing one. *)
Theorem minhash_depends_on_token_set (g : t) (A B : list string) :
  wf g -> incl A B -> incl B A ->
  hash g A None = hash g B None
  /\ forall existing, length existing = hash_size g ->
                      hash g A (Some existing) = hash g B (Some existing).
Proof.
  intros Hwf HAB HBA; split.
  - rewrite !hash_none_wf by assumption; f_equal.
    apply fold_tokens_same_set; auto using repeat_length.
  - intros existing Hlen; rewrite !hash_some_wf by assumption; do 2 f_equal.
    apply fold_tokens_same_set; assumption.
Qed.
End MinHashSignatures.

(** ** MinHash: permutations, their replacement and the constructor *)

Lemma np_minimum_stretch (a : list Z) (y : Z) :
  np_minimum a [y] = Ok (minimum_zip a (repeat y (length a))).
Proof.
  assert (H : forall l, map (fun x => Z.min x y) l = minimum_zip l (repeat y (length l)))
    by (induction l as [|x l IH]; simpl; [| rewrite IH]; reflexivity).
  destruct a as [|x1 [|x2 a]]; try reflexivity.
  unfold np_minimum; simpl length; simpl Nat.eqb; cbv iota.
  rewrite H; reflexivity.
Qed.

Lemma np_minimum_mismatch (a b : list Z) :
  length a <> length b -> length a <> 1%nat -> length b <> 1%nat ->
  np_minimum a b = Raise (ValueError "operands could not be broadcast together").
Proof.
  intros Hab Ha Hb; unfold np_minimum.
  destruct (Nat.eqb_spec (length a) (length b)) as [E | _]; [contradiction |].
  destruct a as [|x1 [|x2 a]], b as [|y1 [|y2 b]]; simpl in *; try reflexivity; lia.
Qed.

Section MinHashPermutations.
Context {NP : Numpy}.
Import MinHashHashGenerator.

Lemma hash_reads_permutations (g1 g2 : t) (values : list string) (hv : option signature) :
  hash_size g1 = hash_size g2 -> _permutations g1 = _permutations g2 ->
  hash g1 values hv = hash g2 values hv.
Proof. intros Hs Hp; unfold hash; rewrite Hs, Hp; reflexivity. Qed.

Lemma constructed_uint64 (g : t) : constructed g -> uint64_array (data (_permutations g)).
Proof.
  induction 1 as [n seed Hn | g a _ _ Hshape Hdata].
  - unfold init, BaseHashGenerator_init; simpl.
    destruct (draw_pairs n (RandomState_seed seed)) as [pairs s].
    destruct pairs as [|p pairs]; [constructor |].
    unfold pairs_array_T, uint64_array; cbn [_permutations data].
    apply Forall_app; split; apply Forall_map, Forall_forall; intros;
      apply wrap64_is_uint64.
  - unfold set_hash_permutations, shape_mismatch; rewrite Hshape; simpl.
    rewrite Nat.eqb_refl; simpl.
    apply Forall_map, Forall_forall; intros; apply wrap64_is_uint64.
Qed.

(** X6: two generators of one hash size that load the same array with
    [set_hash_permutations] hold the same permutations afterwards and give
    the same signature on the same input, whatever their seeds were. *)
Theorem minhash_loaded_generators_agree (g1 g2 : t) (p : ndarray Z) :
  hash_size g1 = hash_size g2 ->
  snd (set_hash_permutations g1 p) = Ok tt ->
  snd (set_hash_permutations g2 p) = Ok tt
  /\ permutations (fst (set_hash_permutations g1 p))
     = permutations (fst (set_hash_permutations g2 p))
  /\ forall values hv,
      hash (fst (set_hash_permutations g1 p)) values hv
      = hash (fst (set_hash_permutations g2 p)) values hv.
Proof.
  intros Hs; unfold set_hash_permutations, shape_mismatch; rewrite <- Hs.
  destruct (tuple_get (shape p) 0) as [s0 |]; simpl; [| discriminate].
  destruct (s0 =? 2)%nat; simpl; [| discriminate].
  destruct (tuple_get (shape p) 1) as [s1 |]; simpl; [| discriminate].
  destruct (s1 =? hash_size g1)%nat; simpl; [| discriminate].
  intros _; repeat split.
  intros values hv; apply hash_reads_permutations; [exact Hs | reflexivity].
Qed.

(** X7: the permutations of a generator can be loaded back into it:
    [set_hash_permutations] accepts them and leaves the generator as it
    was. *)
Theorem minhash_permutations_round_trip (g : t) :
  constructed g -> set_hash_permutations g (permutations g) = (g, Ok tt).
Proof.
  intros Hc; pose proof (constructed_wf g Hc) as [Hshape _].
  pose proof (constructed_uint64 g Hc) as Hu.
  unfold set_hash_permutations, shape_mismatch, permutations; rewrite Hshape; simpl.
  rewrite Nat.eqb_refl; simpl.
  unfold np_array_uint64; rewrite Hshape.
  change (map wrap64 (data (_permutations g))) with (astype_uint64 (data (_permutations g))).
  rewrite astype_uint64_id by assumption.
  destruct g as [b [sh d]]; unfold hash_size in *; simpl in *.
  rewrite <- Hshape; reflexivity.
Qed.

(** X8: on an array of a 64-bit integer dtype [set_hash_permutations]
    succeeds exactly when the shape starts with (2, hash_size); it then
    installs the array cast to unsigned 64 bits and touches nothing else,
    and in every other case it leaves the generator as it was. *)
Theorem set_hash_permutations_accepts_iff (g : t) (a : ndarray Z) :
  integer_dtype a ->
  (snd (set_hash_permutations g a) = Ok tt
   <-> exists rest, shape a = 2%nat :: hash_size g :: rest)
  /\ (snd (set_hash_permutations g a) = Ok tt ->
      fst (set_hash_permutations g a)
      = mk (base g) (mk_ndarray (shape a) (map cast_uint64 (data a))))
  /\ (snd (set_hash_permutations g a) <> Ok tt ->
      fst (set_hash_permutations g a) = g).
Proof.
  intros Hdtype.
  unfold set_hash_permutations, shape_mismatch, np_array_uint64.
  rewrite (cast_uint64_wrap a Hdtype).
  destruct (shape a) as [|s0 [|s1 rest]] eqn:Hshape; simpl.
  - repeat split; try discriminate; try reflexivity.
    intros [rest [=]].
  - destruct (Nat.eqb_spec s0 2) as [-> | Hs0]; simpl;
      (repeat split; try discriminate; try reflexivity); intros [rest [=]].
  - destruct (Nat.eqb_spec s0 2) as [-> | Hs0]; simpl.
    + destruct (Nat.eqb_spec s1 (hash_size g)) as [-> | Hs1]; simpl;
        repeat split; try discriminate; try reflexivity; try contradiction.
      * intros _; exists rest; reflexivity.
      * intros [rest' [=]]; contradiction.
    + repeat split; try discriminate; try reflexivity.
      intros [rest' [=]]; contradiction.
Qed.

(** X9: a generator built with [hash_size = 0] holds a one-dimensional
    empty array, which does not unpack into two rows: every call of [hash]
    raises a [ValueError], a batch that is not empty yields nothing before
    it raises, and only the empty batch goes through. *)
Theorem minhash_zero_hash_size_cannot_hash (seed : Z) :
  shape (permutations (init 0 seed)) = [0%nat]
  /\ (forall values hv,
         exists msg, hash (init 0 seed) values hv = Raise (ValueError msg))
  /\ (forall v instances,
         exists msg,
           generate_hashes (init 0 seed) (v :: instances) = ([], Some (ValueError msg)))
  /\ generate_hashes (init 0 seed) [] = ([], None).
Proof.
  repeat split.
  - intros values hv; eexists; reflexivity.
  - intros v instances; eexists; reflexivity.
Qed.

(** X10: [hash] does not check the length of the signature it is given.
    With no token it returns the signature as it is, whatever its length;
    with a token, a signature of one entry is stretched to [hash_size]
    entries, and any other length that is not [hash_size] raises a
    [ValueError]. *)
Theorem minhash_existing_signature_length (g : t) (existing : signature)
        (v : string) (rest : list string) :
  wf g -> uint64_array existing ->
  hash g [] (Some existing) = Ok existing
  /\ (forall x, hash g (v :: rest) (Some [x])
                = hash g (v :: rest) (Some (repeat x (hash_size g))))
  /\ (length existing <> hash_size g -> length existing <> 1%nat ->
      hash_size g <> 1%nat ->
      exists msg, hash g (v :: rest) (Some existing) = Raise (ValueError msg)).
Proof.
  intros Hwf Hu.
  assert (Hp : length (permute (row_a g) (row_b g) (mmh3_hash (encode_utf8 v)))
               = hash_size g).
  { rewrite permute_length; rewrite row_a_length by assumption;
      [reflexivity | rewrite row_b_length by assumption; reflexivity]. }
  repeat split.
  - unfold hash; rewrite (unpack_pair_wf g Hwf); simpl.
    rewrite astype_uint64_id by assumption; reflexivity.
  - intros x; unfold hash; rewrite (unpack_pair_wf g Hwf); simpl.
    unfold hash_step; simpl.
    rewrite np_minimum_stretch; rewrite Hp.
    rewrite np_minimum_same_length by (rewrite repeat_length; exact Hp).
    reflexivity.
  - intros Hlen H1 Hs; unfold hash; rewrite (unpack_pair_wf g Hwf); simpl.
    unfold hash_step; simpl.
    rewrite np_minimum_mismatch by (try rewrite Hp; lia).
    eexists; reflexivity.
Qed.

Lemma draw_pairs_in_bounds (n : nat) (s : RandomState) :
  randint_in_bounds NP ->
  Forall (fun p => 1 <= fst p < MERSENNE_PRIME /\ 0 <= snd p < MERSENNE_PRIME)
         (fst (draw_pairs n s)).
Proof.
  intros Hb; revert s; induction n as [|n IH]; intros s; simpl; [constructor |].
  pose proof (Hb 1 MERSENNE_PRIME s ltac:(unfold MERSENNE_PRIME; lia)) as Ha.
  destruct (randint 1 MERSENNE_PRIME s) as [a s1].
  pose proof (Hb 0 MERSENNE_PRIME s1 ltac:(unfold MERSENNE_PRIME; lia)) as Hb'.
  destruct (randint 0 MERSENNE_PRIME s1) as [b s2].
  specialize (IH s2); destruct (draw_pairs n s2) as [pairs s3]; simpl in *.
  constructor; auto.
Qed.

(** X11: when numpy's [randint] keeps to its bounds, the constructor with a
    positive [hash_size] leaves a (2, hash_size) array whose first row lies
    in [1, MERSENNE_PRIME) and whose second row lies in [0, MERSENNE_PRIME). *)
Theorem minhash_init_coefficients (n : nat) (seed : Z) :
  randint_in_bounds NP -> (0 < n)%nat ->
  wf (init n seed) /\ hash_size (init n seed) = n
  /\ forall i, (i < n)%nat ->
       1 <= perm_a (init n seed) i < MERSENNE_PRIME
       /\ 0 <= perm_b (init n seed) i < MERSENNE_PRIME.
Proof.
  intros Hb Hn; split; [apply init_wf; assumption |].
  unfold init, BaseHashGenerator_init, perm_a, perm_b, hash_size; simpl.
  pose proof (draw_pairs_length n (RandomState_seed seed)) as Hlen.
  pose proof (draw_pairs_in_bounds n (RandomState_seed seed) Hb) as Hall.
  destruct (draw_pairs n (RandomState_seed seed)) as [pairs s]; simpl in *.
  split; [reflexivity |].
  intros i Hi; destruct pairs as [|p0 pairs]; [simpl in Hlen; lia |].
  unfold pairs_array_T; cbn [_permutations data base _hash_size].
  set (ps := p0 :: pairs) in *.
  assert (Hin : In (nth i ps (0, 0)) ps) by (apply nth_In; lia).
  rewrite Forall_forall in Hall; specialize (Hall _ Hin).
  assert (Hmp : MERSENNE_PRIME < 2 ^ 64) by (unfold MERSENNE_PRIME; lia).
  rewrite app_nth1 by (rewrite length_map; lia).
  rewrite app_nth2 by (rewrite length_map; lia).
  rewrite length_map, <- Hlen.
  replace (length ps + i - length ps)%nat with i by lia.
  assert (Hnth : forall f : Z * Z -> Z,
             f (0, 0) = 0 -> nth i (map f ps) 0 = f (nth i ps (0, 0))).
  { intros f Hf; transitivity (nth i (map f ps) (f (0, 0)));
      [f_equal; symmetry; exact Hf | apply map_nth]. }
  rewrite !Hnth by reflexivity.
  rewrite !wrap64_id by (unfold is_uint64; lia).
  assumption.
Qed.

Lemma generate_hashes_wf (g : t) (instances : list (list string)) :
  wf g ->
  generate_hashes g instances
  = (map (fun v => fold_left (fold_token g) v (repeat MAX_HASH (hash_size g))) instances,
     None).
Proof.
  intros Hwf; unfold generate_hashes.
  induction instances as [|v instances IH]; simpl; [reflexivity |].
  rewrite hash_none_wf by assumption.
  destruct (generate_with (fun g0 v0 => (g0, hash g0 v0 None)) g instances)
    as [g' [sigs e]]; simpl in *.
  injection IH as -> ->; reflexivity.
Qed.

(** X12: on a well-formed generator [generate_hashes] never raises: it
    yields one signature of [hash_size] entries per record, in the order of
    the records, each the signature [hash] gives for that record; a
    consumer that stops after [k] records has seen the first [k] of them. *)
Theorem minhash_generate_hashes (g : t) (instances : list (list string)) :
  wf g ->
  exists sigs,
    generate_hashes g instances = (sigs, None)
    /\ Forall2 (fun v sig => hash g v None = Ok sig /\ length sig = hash_size g)
               instances sigs
    /\ forall k, generate_hashes g (firstn k instances) = (firstn k sigs, None).
Proof.
  intros Hwf; eexists; split; [apply generate_hashes_wf; assumption |]; split.
  - induction instances as [|v instances IH]; simpl; constructor; [| exact IH].
    rewrite hash_none_wf by assumption; split; [reflexivity |].
    apply fold_tokens_invariant; auto using repeat_length.
  - intros k; rewrite generate_hashes_wf by assumption.
    rewrite firstn_map; reflexivity.
Qed.
End MinHashPermutations.

(** ** The similarity score: symmetry and extreme values *)

Lemma np_equal_sym (l r : list Z) : np_equal l r = np_equal r l.
Proof.
  revert r; induction l as [|x l IH]; intros [|y r]; simpl; try reflexivity.
  rewrite Z.eqb_sym, IH; reflexivity.
Qed.

Lemma np_equal_same (l : list Z) : np_count_nonzero (np_equal l l) = length l.
Proof.
  unfold np_count_nonzero; induction l as [|x l IH]; simpl; [reflexivity |].
  rewrite Z.eqb_refl; simpl; rewrite IH; reflexivity.
Qed.

Lemma np_equal_nowhere (l r : list Z) :
  Forall2 (fun x y => x <> y) l r -> np_count_nonzero (np_equal l r) = 0%nat.
Proof.
  unfold np_count_nonzero; induction 1 as [|x y l r Hxy _ IH]; simpl; [reflexivity |].
  destruct (Z.eqb_spec x y); [contradiction | exact IH].
Qed.

Lemma float16_div_self (n : Z) :
  1 <= n <= 65519 -> float16_div (np_float16 n) (np_float16 n) = np_float16 1.
Proof.
  intros Hn; pose proof (count_rounds_well_at n Hn) as Hw.
  apply andb_prop in Hw as [Hnorm _].
  destruct (float16_normal_inv _ Hnorm) as (m & e & E); rewrite E in *.
  unfold float16_normal in Hnorm.
  repeat (apply andb_prop in Hnorm as [Hnorm ?]).
  match goal with H : (Zdigits2 _ =? 11) = true |- _ => apply Z.eqb_eq in H; rename H into Hd end.
  unfold float16_div, SFdiv, SFdiv_core_binary; rewrite Hd.
  replace (11 + e - (11 + e)) with 0 by lia.
  replace (e - e) with 0 by lia.
  match goal with |- context [Z.min ?a ?b] => evaluate (Z.min a b) end.
  match goal with |- context [Z.shiftl _ ?s] => evaluate s end.
  cbv beta iota; rewrite Z.shiftl_mul_pow2 by lia.
  pose proof (Z_div_mod (Z.pos m * 2 ^ 11) (Z.pos m) eq_refl) as Hdiv.
  destruct (Z.div_eucl (Z.pos m * 2 ^ 11) (Z.pos m)) as [q r].
  destruct Hdiv as [Hdiv Hr]; evaluate_powers.
  assert (q = 2048) by nia; assert (r = 0) by nia; subst.
  rewrite new_location_zero; vm_compute; reflexivity.
Qed.

Lemma float16_div_zero (n : Z) :
  1 <= n <= 65519 -> float16_div (np_float16 0) (np_float16 n) = np_float16 0.
Proof.
  intros Hn; pose proof (count_rounds_well_at n Hn) as Hw.
  apply andb_prop in Hw as [Hnorm _].
  destruct (float16_normal_inv _ Hnorm) as (m & e & ->); reflexivity.
Qed.

Lemma similarity_score_same_length (l r : signature) :
  length l = length r ->
  similarity_score l r
  = Ok (float16_div (np_float16 (Z.of_nat (np_count_nonzero (np_equal l r))))
                    (np_float16 (Z.of_nat (length l)))).
Proof. intros H; unfold similarity_score; rewrite H, Nat.eqb_refl; reflexivity. Qed.

(** X13: the score does not depend on the order of its two arguments,
    whether it is a value or the error for two lengths. *)
Theorem similarity_score_symmetric (l r : signature) :
  similarity_score l r = similarity_score r l.
Proof.
  unfold similarity_score; rewrite (Nat.eqb_sym (length r) (length l)).
  destruct (Nat.eqb_spec (length l) (length r)) as [E | NE]; simpl.
  - rewrite (np_equal_sym r l), E; reflexivity.
  - reflexivity.
Qed.

(** X15: for signatures of 1 to 65519 entries, a signature scores exactly
    1.0 against itself, and two signatures that differ at every position
    score exactly 0.0. *)
Theorem similarity_score_extremes (l r : signature) :
  (1 <= length l)%nat -> Z.of_nat (length l) <= 65519 ->
  similarity_score l l = Ok (np_float16 1)
  /\ (Forall2 (fun x y => x <> y) l r -> similarity_score l r = Ok (np_float16 0)).
Proof.
  intros H1 H2; split.
  - rewrite similarity_score_same_length, np_equal_same by reflexivity.
    rewrite float16_div_self by lia; reflexivity.
  - intros Hdiff.
    rewrite similarity_score_same_length by (eapply Forall2_length; eassumption).
    rewrite np_equal_nowhere by assumption.
    rewrite float16_div_zero by lia; reflexivity.
Qed.

(** X16: with a generator of 1 to 65519 positions, two lists that hold the
    same tokens have signatures that score exactly 1.0. *)
Theorem minhash_same_tokens_score_one {NP : Numpy}
        (g : MinHashHashGenerator.t) (A B : list string) :
  MinHashHashGenerator.wf g ->
  (1 <= MinHashHashGenerator.hash_size g)%nat ->
  Z.of_nat (MinHashHashGenerator.hash_size g) <= 65519 ->
  incl A B -> incl B A ->
  (sA <- MinHashHashGenerator.hash g A None ;;
   sB <- MinHashHashGenerator.hash g B None ;;
   similarity_score sA sB) = Ok (np_float16 1).
Proof.
  intros Hwf H1 H2 HAB HBA; rewrite !hash_none_wf by assumption; simpl.
  rewrite (fold_tokens_same_set g A B) by (auto using repeat_length).
  assert (Hlen : length (fold_left (MinHashHashGenerator.fold_token g) B
                           (repeat MAX_HASH (MinHashHashGenerator.hash_size g)))
                 = MinHashHashGenerator.hash_size g)
    by (apply fold_tokens_invariant; auto using repeat_length).
  rewrite similarity_score_same_length, np_equal_same by reflexivity.
  rewrite Hlen, float16_div_self by lia; reflexivity.
Qed.

(** ** Random projections: the signature, the cache and batches *)

Lemma comprehension_Forall {A B : Type} (f : A -> result B) (P : B -> Prop)
      (xs : list A) (ys : list B) :
  (forall x y, f x = Ok y -> P y) -> comprehension f xs = Ok ys -> Forall P ys.
Proof.
  intros Hf; revert ys; induction xs as [|x xs IH]; intros ys; simpl.
  - intros [= <-]; constructor.
  - destruct (f x) as [y |] eqn:Hy; simpl; [| discriminate].
    destruct (comprehension f xs) as [ys' |]; simpl; [| discriminate].
    intros [= <-]; constructor; [eapply Hf; eassumption | apply IH; reflexivity].
Qed.

Lemma generate_with_stops {S A B : Type} (f : A -> result B) (s : S)
      (good : list A) (bad : A) (rest : list A) (sigs : list B) (e : exception) :
  snd (generate_with (fun s' v => (s', f v)) s good) = (sigs, None) ->
  f bad = Raise e ->
  snd (generate_with (fun s' v => (s', f v)) s (good ++ bad :: rest)) = (sigs, Some e).
Proof.
  intros Hgood Hbad; revert sigs Hgood; induction good as [|v good IH]; intros sigs; simpl.
  - intros [= <-]; rewrite Hbad; reflexivity.
  - destruct (f v) as [h |]; [| discriminate].
    destruct (generate_with (fun s' v0 => (s', f v0)) s good) as [s1 [hs1 e1]].
    simpl; intros [= <- ->]; specialize (IH hs1 eq_refl).
    destruct (generate_with (fun s' v0 => (s', f v0)) s (good ++ bad :: rest))
      as [s2 [hs2 e2]].
    simpl in *; injection IH as -> ->; reflexivity.
Qed.

Section ProjectionFurther.
Context {NP : Numpy}.
Import RandomProjectionsHashGenerator.

Lemma cache_after_sparse (g : t) (m : spmatrix) (hv : option signature) :
  wf g -> normals_csr (fst (hash g (Sparse m) hv)) = Some (csr_of_dense (normals g)).
Proof.
  intros (_ & _ & [H | H]); unfold normals_csr, normals; simpl; rewrite H; reflexivity.
Qed.

Lemma cache_after_hashes (g : t) (calls : list values) :
  wf g ->
  normals_csr (after_hashes g calls)
  = if existsb issparse calls then Some (csr_of_dense (normals g)) else normals_csr g.
Proof.
  unfold after_hashes; revert g; induction calls as [|v calls IH]; intros g Hwf.
  - reflexivity.
  - simpl fold_left; rewrite IH by (apply hash_preserves_wf; assumption).
    unfold normals; rewrite (proj2 (proj2 (hash_frame g v None))).
    destruct v as [v | m]; simpl existsb; simpl issparse.
    + reflexivity.
    + rewrite (cache_after_sparse g m None Hwf).
      destruct (existsb issparse calls); reflexivity.
Qed.

(** X17: whatever the input, a signature that [hash] returns holds only
    zeros and ones. *)
Theorem projections_signature_is_binary (g : t) (v : values) (hv : option signature)
        (sig : signature) :
  snd (hash g v hv) = Ok sig -> Forall (fun b => b = 0 \/ b = 1) sig.
Proof.
  destruct v as [v | m]; simpl.
  - destruct (np_dot (_normals g) v) as [projection |]; simpl; [| discriminate].
    intros [= <-]; apply Forall_map, Forall_forall; intros x _.
    unfold float_bit; destruct (PrimFloat.ltb PrimFloat.zero x); auto.
  - match goal with
    | |- context [sp_dot ?a ?b] => destruct (sp_dot a b) as [projection |]
    end; simpl; [| discriminate].
    apply comprehension_Forall; intros x y; unfold sparse_row_bit.
    destruct (sp_cols projection =? 1)%nat; [| discriminate].
    intros [= <-]; destruct (existsb _ x); auto.
Qed.

(** X18: the sparse form of the basis is built by the first sparse input and
    by nothing else: after any sequence of [hash] calls on a new generator
    the cache is the CSR form of the basis if one of the inputs was sparse,
    and is still absent otherwise. *)
Theorem projections_sparse_cache (hash_size : nat) (seed : Z) (dimension : nat)
        (calls : list values) :
  normals_csr (after_hashes (init hash_size seed dimension) calls)
  = if existsb issparse calls
    then Some (csr_of_dense (normals (init hash_size seed dimension)))
    else None.
Proof.
  rewrite cache_after_hashes by apply init_wf_projections.
  destruct (existsb issparse calls); [reflexivity |].
  unfold init, BaseHashGenerator_init; simpl.
  destruct (draw_normals (hash_size * dimension) (RandomState_seed seed)); reflexivity.
Qed.

Lemma hash_dense_wrong_dimension (g : t) (v : list float) (hv : option signature) :
  wf g -> length v <> dimension g ->
  exists msg, hash g (Dense v) hv = (g, Raise (ValueError msg)).
Proof.
  intros (_ & Hc & _) Hv; unfold hash, np_dot, dimension in *; rewrite Hc.
  destruct (Nat.eqb_spec (_dimension g) (length v)) as [E | _];
    [congruence | eexists; reflexivity].
Qed.

(** X19: an input of another dimension makes [hash] raise a [ValueError].
    A dense one leaves the generator as it was; a sparse one has built the
    sparse basis before the product is refused. *)
Theorem projections_wrong_dimension (g : t) :
  wf g ->
  (forall v hv, length v <> dimension g ->
                exists msg, hash g (Dense v) hv = (g, Raise (ValueError msg)))
  /\ (forall m hv, sp_rows m <> dimension g ->
                   exists msg,
                     snd (hash g (Sparse m) hv) = Raise (ValueError msg)
                     /\ normals_csr (fst (hash g (Sparse m) hv))
                        = Some (csr_of_dense (normals g))).
Proof.
  intros Hwf; pose proof Hwf as (Hr & Hc & Hcache); split.
  - intros v hv Hv; apply hash_dense_wrong_dimension; assumption.
  - intros m hv Hm; eexists; split; [| apply cache_after_sparse; assumption].
    unfold dimension in *; simpl.
    assert (Hcsr : match _normals_csr g with
                   | Some c => c
                   | None => csr_of_dense (_normals g)
                   end = csr_of_dense (_normals g))
      by (destruct Hcache as [-> | ->]; reflexivity).
    rewrite Hcsr; unfold sp_dot; simpl.
    assert (Hrows : sp_rows (if isspmatrix_csr m then m else csr_of_sparse m) = sp_rows m)
      by (destruct (isspmatrix_csr m); reflexivity).
    rewrite Hrows, Hc.
    destruct (Nat.eqb_spec (_dimension g) (sp_rows m)) as [E | _];
      [congruence | reflexivity].
Qed.

Lemma hash_fits (g : t) (v : values) :
  wf g -> fits g v ->
  exists sig, snd (hash g v None) = Ok sig /\ length sig = hash_size g.
Proof.
  intros Hwf Hv; destruct v as [v | m]; simpl in Hv.
  - apply hash_dense_length; assumption.
  - apply hash_sparse_length; assumption.
Qed.

Lemma fits_frame (g g' : t) (v : values) :
  _dimension g' = _dimension g -> fits g v -> fits g' v.
Proof. unfold fits, dimension; intros ->; auto. Qed.

Lemma generate_hashes_history (g g0 : t) (instances : list values) :
  wf g -> wf g0 -> _normals g = _normals g0 ->
  snd (generate_hashes g instances)
  = snd (generate_with (fun s v => (s, snd (hash g0 v None))) g0 instances).
Proof.
  unfold generate_hashes; intros Hwf Hwf0 Hn; revert g Hwf Hn.
  induction instances as [|v instances IH]; intros g Hwf Hn; simpl; [reflexivity |].
  pose proof (hash_outcome g g0 v None None Hwf Hwf0 Hn) as Hout.
  pose proof (hash_preserves_wf g v None Hwf) as Hwf'.
  pose proof (proj2 (proj2 (hash_frame g v None))) as Hn'.
  destruct (hash g v None) as [g' r]; simpl in *; rewrite <- Hout.
  destruct r as [sig | e]; [| reflexivity].
  specialize (IH g' Hwf' ltac:(congruence)).
  destruct (generate_with (fun g1 v0 => hash g1 v0 None) g' instances) as [g'' [sigs e]].
  destruct (generate_with (fun s v0 => (s, snd (hash g0 v0 None))) g0 instances)
    as [g0' [sigs0 e0]].
  simpl in *; injection IH as -> ->; reflexivity.
Qed.

Lemma generate_alone_fits (g : t) (instances : list values) :
  wf g -> Forall (fits g) instances ->
  exists sigs,
    snd (generate_with (fun s v => (s, snd (hash g v None))) g instances) = (sigs, None)
    /\ Forall2 (fun v sig => snd (hash g v None) = Ok sig /\ length sig = hash_size g)
               instances sigs.
Proof.
  intros Hwf; induction 1 as [|v instances Hv _ IH]; simpl.
  - exists []; split; [reflexivity | constructor].
  - destruct (hash_fits g v Hwf Hv) as (sig & Hsig & Hlen); rewrite Hsig.
    destruct IH as (sigs & Hsigs & Hall).
    destruct (generate_with (fun s v0 => (s, snd (hash g v0 None))) g instances)
      as [g' [sigs' e]]; simpl in *.
    injection Hsigs as -> ->.
    exists (sig :: sigs); split; [reflexivity | constructor; auto].
Qed.

(** X20: in a batch, what a record yields does not depend on the records
    hashed before it: [generate_hashes] yields, record by record, what the
    generator it started from gives for that record alone.  When every
    record is of the dimension of the generator, it yields one signature of
    [hash_size] entries per record and raises nothing. *)
Theorem projections_generate_hashes (g : t) (instances : list values) :
  wf g ->
  snd (generate_hashes g instances)
  = snd (generate_with (fun s v => (s, snd (hash g v None))) g instances)
  /\ (Forall (fits g) instances ->
      exists sigs,
        snd (generate_hashes g instances) = (sigs, None)
        /\ Forall2 (fun v sig => snd (hash g v None) = Ok sig
                                 /\ length sig = hash_size g)
                   instances sigs).
Proof.
  intros Hwf.
  pose proof (generate_hashes_history g g instances Hwf Hwf eq_refl) as Hhist.
  split; [exact Hhist |].
  rewrite Hhist; apply generate_alone_fits; assumption.
Qed.

(** X21: a record of another dimension ends the batch: the records before it
    have yielded their signatures, the error is the one [hash] raises for
    that record, and the records after it change nothing. *)
Theorem projections_generate_hashes_stops (g : t) (good : list values)
        (bad : list float) (rest rest' : list values) :
  wf g -> Forall (fits g) good -> length bad <> dimension g ->
  exists sigs msg,
    snd (generate_hashes g (good ++ Dense bad :: rest))
    = (sigs, Some (ValueError msg))
    /\ snd (generate_hashes g good) = (sigs, None)
    /\ snd (generate_hashes g (good ++ Dense bad :: rest'))
       = snd (generate_hashes g (good ++ Dense bad :: rest)).
Proof.
  intros Hwf Hgood Hbad.
  destruct (hash_dense_wrong_dimension g bad None Hwf Hbad) as [msg Hmsg].
  destruct (generate_alone_fits g good Hwf Hgood) as (sigs & Hsigs & _).
  assert (Hraise : snd (hash g (Dense bad) None) = Raise (ValueError msg))
    by (rewrite Hmsg; reflexivity).
  exists sigs, msg; rewrite !(generate_hashes_history g g) by auto.
  rewrite !(generate_with_stops (fun v => snd (hash g v None)) g good (Dense bad) _
              sigs (ValueError msg) Hsigs Hraise).
  auto.
Qed.
End ProjectionFurther.

(** ** MinHash: every entry is the value of a token *)

(** X22: in the fresh signature of a list of tokens that is not empty, every
    entry is the permuted value of one of the tokens, and no token has a
    smaller permuted value at that position. *)
Theorem minhash_entry_is_least_token_value {NP : Numpy}
        (g : MinHashHashGenerator.t) (values : list string) :
  MinHashHashGenerator.wf g -> values <> [] ->
  exists sig,
    MinHashHashGenerator.hash g values None = Ok sig
    /\ forall i, (i < MinHashHashGenerator.hash_size g)%nat ->
         (exists v, In v values /\ nth i sig 0 = token_value g i v)
         /\ forall w, In w values -> nth i sig 0 <= token_value g i w.
Proof.
  intros Hwf Hne; rewrite hash_none_wf by assumption; eexists; split; [reflexivity |].
  intros i Hi; rewrite fold_tokens_nth by (auto using repeat_length).
  rewrite nth_repeat_lt by assumption; unfold least_value.
  assert (Hle : forall w, In w values ->
                  fold_left Z.min (map (token_value g i) values) MAX_HASH
                  <= token_value g i w)
    by (intros w Hw; apply fold_min_le_elem, in_map, Hw).
  split; [| exact Hle].
  destruct (fold_min_attained (map (token_value g i) values) MAX_HASH) as [E | Hin].
  - destruct values as [|v0 values']; [contradiction |].
    exists v0; split; [left; reflexivity |].
    pose proof (Hle v0 (or_introl eq_refl)) as H0.
    pose proof (permute_uint64_range
                  (MinHashHashGenerator.perm_a g i) (MinHashHashGenerator.perm_b g i)
                  (mmh3_hash (encode_utf8 v0))) as Hr.
    unfold token_value in *; rewrite E in *; unfold MAX_HASH in *; lia.
  - apply in_map_iff in Hin as (v & Hv & Hin).
    exists v; split; [assumption | symmetry; assumption].
Qed.

(** ** The further properties on concrete generators *)

Lemma example_incl_ab : incl ["a"%string] ["a"%string; "b"%string].
Proof. intros x [<- | []]; simpl; auto. Defined.

Lemma example_same_tokens :
  incl ["a"%string; "b"%string] ["b"%string; "a"%string; "a"%string]
  /\ incl ["b"%string; "a"%string; "a"%string] ["a"%string; "b"%string].
Proof.
  split; intros x Hx; simpl in *;
    repeat (destruct Hx as [<- | Hx]; auto); contradiction.
Defined.

Lemma example_signature_uint64 : uint64_array [MAX_HASH; 7].
Proof. repeat constructor; unfold MAX_HASH; lia. Defined.

Lemma minhash_signature_least_values_witness :
  MinHashHashGenerator.wf example_minhash
  /\ exists sig,
      MinHashHashGenerator.hash example_minhash ["a"%string; "b"%string] None = Ok sig
      /\ length sig = MinHashHashGenerator.hash_size example_minhash
      /\ forall i, (i < MinHashHashGenerator.hash_size example_minhash)%nat ->
           nth i sig 0
           = least_value example_minhash i ["a"%string; "b"%string] MAX_HASH.
Proof.
  split; [exact example_minhash_wf |].
  exact (proj1 (minhash_signature_least_values example_minhash
                  ["a"%string; "b"%string] example_minhash_wf)).
Defined.

Lemma minhash_entries_are_32_bit_witness :
  MinHashHashGenerator.wf example_minhash
  /\ MinHashHashGenerator.hash example_minhash ["a"%string; "b"%string] None
     = Ok [555106799; 121273547]
  /\ Forall (fun z => 0 <= z <= MAX_HASH) [555106799; 121273547].
Proof.
  split; [exact example_minhash_wf |].
  split; [reflexivity |].
  apply (proj1 (minhash_entries_are_32_bit example_minhash ["a"%string; "b"%string]
                  example_minhash_wf)).
  reflexivity.
Defined.

Lemma minhash_tokens_only_lower_witness :
  MinHashHashGenerator.wf example_minhash
  /\ length [MAX_HASH; 7] = MinHashHashGenerator.hash_size example_minhash
  /\ uint64_array [MAX_HASH; 7]
  /\ incl ["a"%string] ["a"%string; "b"%string]
  /\ exists updated sA sB,
      MinHashHashGenerator.hash example_minhash ["a"%string] (Some [MAX_HASH; 7])
      = Ok updated
      /\ MinHashHashGenerator.hash example_minhash ["a"%string] None = Ok sA
      /\ MinHashHashGenerator.hash example_minhash ["a"%string; "b"%string] None = Ok sB
      /\ forall i, (i < MinHashHashGenerator.hash_size example_minhash)%nat ->
           nth i updated 0 <= nth i [MAX_HASH; 7] 0 /\ nth i sB 0 <= nth i sA 0.
Proof.
  split; [exact example_minhash_wf |].
  split; [reflexivity |].
  split; [exact example_signature_uint64 |].
  split; [exact example_incl_ab |].
  exact (minhash_tokens_only_lower example_minhash ["a"%string] ["a"%string; "b"%string]
           [MAX_HASH; 7] example_minhash_wf eq_refl example_signature_uint64
           example_incl_ab).
Defined.

Lemma minhash_union_is_minimum_witness :
  MinHashHashGenerator.wf example_minhash
  /\ (sA <- MinHashHashGenerator.hash example_minhash ["a"%string] None ;;
      sB <- MinHashHashGenerator.hash example_minhash ["b"%string; "c"%string] None ;;
      np_minimum sA sB)
     = MinHashHashGenerator.hash example_minhash
         (["a"%string] ++ ["b"%string; "c"%string]) None.
Proof.
  split; [exact example_minhash_wf |].
  exact (minhash_union_is_minimum example_minhash ["a"%string] ["b"%string; "c"%string]
           example_minhash_wf).
Defined.

Lemma minhash_depends_on_token_set_witness :
  MinHashHashGenerator.wf example_minhash
  /\ incl ["a"%string; "b"%string] ["b"%string; "a"%string; "a"%string]
  /\ incl ["b"%string; "a"%string; "a"%string] ["a"%string; "b"%string]
  /\ MinHashHashGenerator.hash example_minhash ["a"%string; "b"%string] None
     = MinHashHashGenerator.hash example_minhash ["b"%string; "a"%string; "a"%string] None.
Proof.
  split; [exact example_minhash_wf |].
  split; [exact (proj1 example_same_tokens) |].
  split; [exact (proj2 example_same_tokens) |].
  exact (proj1 (minhash_depends_on_token_set example_minhash _ _ example_minhash_wf
                  (proj1 example_same_tokens) (proj2 example_same_tokens))).
Defined.

Lemma minhash_loaded_generators_agree_witness :
  MinHashHashGenerator.hash_size example_minhash
  = MinHashHashGenerator.hash_size (@MinHashHashGenerator.init lcg_numpy 2 999)
  /\ snd (MinHashHashGenerator.set_hash_permutations example_minhash
            (mk_ndarray [2%nat; 2%nat] [3; 5; 7; 11])) = Ok tt
  /\ MinHashHashGenerator.permutations
       (fst (MinHashHashGenerator.set_hash_permutations example_minhash
               (mk_ndarray [2%nat; 2%nat] [3; 5; 7; 11])))
     = MinHashHashGenerator.permutations
         (fst (MinHashHashGenerator.set_hash_permutations
                 (@MinHashHashGenerator.init lcg_numpy 2 999)
                 (mk_ndarray [2%nat; 2%nat] [3; 5; 7; 11]))).
Proof.
  split; [reflexivity |].
  split; [reflexivity |].
  exact (proj1 (proj2 (minhash_loaded_generators_agree
                         example_minhash (@MinHashHashGenerator.init lcg_numpy 2 999)
                         (mk_ndarray [2%nat; 2%nat] [3; 5; 7; 11]) eq_refl eq_refl))).
Defined.

Lemma example_minhash_constructed : MinHashHashGenerator.constructed example_minhash.
Proof. apply (@MinHashHashGenerator.constructed_init lcg_numpy 2 12345); lia. Defined.

Lemma minhash_permutations_round_trip_witness :
  MinHashHashGenerator.constructed example_minhash
  /\ MinHashHashGenerator.set_hash_permutations
       example_minhash (MinHashHashGenerator.permutations example_minhash)
     = (example_minhash, Ok tt).
Proof.
  split; [exact example_minhash_constructed |].
  exact (minhash_permutations_round_trip example_minhash example_minhash_constructed).
Defined.

(** An [int64] array of shape (2, 2) with a negative entry. *)
Lemma signed_is_integer_dtype :
  integer_dtype (mk_ndarray [2%nat; 2%nat] [-1; 5; 3; 7]).
Proof. right; repeat constructor; discriminate. Defined.

Lemma set_hash_permutations_accepts_iff_witness :
  integer_dtype (mk_ndarray [2%nat; 2%nat] [-1; 5; 3; 7])
  /\ snd (MinHashHashGenerator.set_hash_permutations
            example_minhash (mk_ndarray [2%nat; 2%nat] [-1; 5; 3; 7])) = Ok tt
  /\ fst (MinHashHashGenerator.set_hash_permutations
            example_minhash (mk_ndarray [2%nat; 2%nat] [-1; 5; 3; 7]))
     = MinHashHashGenerator.mk (MinHashHashGenerator.base example_minhash)
         (mk_ndarray [2%nat; 2%nat] [2 ^ 64 - 1; 5; 3; 7]).
Proof.
  pose proof (set_hash_permutations_accepts_iff
                example_minhash (mk_ndarray [2%nat; 2%nat] [-1; 5; 3; 7])
                signed_is_integer_dtype) as (Hiff & Hinstalled & _).
  assert (Hok : snd (MinHashHashGenerator.set_hash_permutations
                       example_minhash (mk_ndarray [2%nat; 2%nat] [-1; 5; 3; 7])) = Ok tt)
    by (apply (proj2 Hiff); exists []; reflexivity).
  split; [exact signed_is_integer_dtype |].
  split; [exact Hok |].
  exact (Hinstalled Hok).
Defined.

Lemma minhash_existing_signature_length_witness :
  MinHashHashGenerator.wf example_minhash
  /\ uint64_array [1; 2; 3]
  /\ MinHashHashGenerator.hash example_minhash [] (Some [1; 2; 3]) = Ok [1; 2; 3]
  /\ exists msg,
      MinHashHashGenerator.hash example_minhash ["a"%string] (Some [1; 2; 3])
      = Raise (ValueError msg).
Proof.
  assert (Hu : uint64_array [1; 2; 3]) by (repeat constructor; lia).
  pose proof (minhash_existing_signature_length example_minhash [1; 2; 3] "a" []
                example_minhash_wf Hu) as (Hempty & _ & Hraise).
  split; [exact example_minhash_wf |].
  split; [exact Hu |].
  split; [exact Hempty |].
  change (MinHashHashGenerator.hash_size example_minhash) with 2%nat in Hraise.
  apply Hraise; simpl; lia.
Defined.

Lemma lcg_randint_in_bounds : randint_in_bounds lcg_numpy.
Proof.
  intros low high s H; simpl; unfold lcg_randint; simpl.
  pose proof (Z.mod_pos_bound (lcg_next s / 2 ^ 3) (high - low) ltac:(lia)); lia.
Qed.

Lemma minhash_init_coefficients_witness :
  randint_in_bounds lcg_numpy /\ (0 < 2)%nat
  /\ MinHashHashGenerator.wf (@MinHashHashGenerator.init lcg_numpy 2 12345)
  /\ forall i, (i < 2)%nat ->
       1 <= MinHashHashGenerator.perm_a (@MinHashHashGenerator.init lcg_numpy 2 12345) i
         < MERSENNE_PRIME
       /\ 0 <= MinHashHashGenerator.perm_b (@MinHashHashGenerator.init lcg_numpy 2 12345) i
          < MERSENNE_PRIME.
Proof.
  assert (H2 : (0 < 2)%nat) by lia.
  pose proof (@minhash_init_coefficients lcg_numpy 2 12345 lcg_randint_in_bounds H2)
    as (Hwf & _ & Hcoef).
  split; [exact lcg_randint_in_bounds |].
  split; [exact H2 |].
  split; [exact Hwf | exact Hcoef].
Defined.

Lemma minhash_generate_hashes_witness :
  MinHashHashGenerator.wf example_minhash
  /\ exists sigs,
      MinHashHashGenerator.generate_hashes
        example_minhash [["a"%string]; ["b"%string; "c"%string]] = (sigs, None)
      /\ Forall2 (fun v sig =>
                    MinHashHashGenerator.hash example_minhash v None = Ok sig
                    /\ length sig = MinHashHashGenerator.hash_size example_minhash)
                 [["a"%string]; ["b"%string; "c"%string]] sigs
      /\ forall k,
          MinHashHashGenerator.generate_hashes
            example_minhash (firstn k [["a"%string]; ["b"%string; "c"%string]])
          = (firstn k sigs, None).
Proof.
  split; [exact example_minhash_wf |].
  exact (minhash_generate_hashes example_minhash [["a"%string]; ["b"%string; "c"%string]]
           example_minhash_wf).
Defined.

Lemma similarity_score_in_unit_interval_witness :
  length [1; 2; 3] = length [1; 2; 4] /\ (1 <= length [1; 2; 3])%nat
  /\ Z.of_nat (length [1; 2; 3]) <= 65519
  /\ exists score,
      similarity_score [1; 2; 3] [1; 2; 4] = Ok score /\ in_unit_interval score = true.
Proof.
  assert (H1 : (1 <= length [1; 2; 3])%nat) by (simpl; lia).
  assert (H2 : Z.of_nat (length [1; 2; 3]) <= 65519) by (simpl; lia).
  split; [reflexivity |].
  split; [exact H1 |].
  split; [exact H2 |].
  exact (similarity_score_in_unit_interval [1; 2; 3] [1; 2; 4] eq_refl H1 H2).
Defined.

Lemma similarity_score_extremes_witness :
  (1 <= length [1; 2; 3])%nat /\ Z.of_nat (length [1; 2; 3]) <= 65519
  /\ similarity_score [1; 2; 3] [1; 2; 3] = Ok (np_float16 1)
  /\ (Forall2 (fun x y => x <> y) [1; 2; 3] [4; 5; 6] ->
      similarity_score [1; 2; 3] [4; 5; 6] = Ok (np_float16 0)).
Proof.
  assert (H1 : (1 <= length [1; 2; 3])%nat) by (simpl; lia).
  assert (H2 : Z.of_nat (length [1; 2; 3]) <= 65519) by (simpl; lia).
  split; [exact H1 |].
  split; [exact H2 |].
  exact (similarity_score_extremes [1; 2; 3] [4; 5; 6] H1 H2).
Defined.

Lemma minhash_same_tokens_score_one_witness :
  MinHashHashGenerator.wf example_minhash
  /\ (1 <= MinHashHashGenerator.hash_size example_minhash)%nat
  /\ Z.of_nat (MinHashHashGenerator.hash_size example_minhash) <= 65519
  /\ (sA <- MinHashHashGenerator.hash example_minhash ["a"%string; "b"%string] None ;;
      sB <- MinHashHashGenerator.hash example_minhash
              ["b"%string; "a"%string; "a"%string] None ;;
      similarity_score sA sB) = Ok (np_float16 1).
Proof.
  assert (H1 : (1 <= MinHashHashGenerator.hash_size example_minhash)%nat)
    by (change (MinHashHashGenerator.hash_size example_minhash) with 2%nat; lia).
  assert (H2 : Z.of_nat (MinHashHashGenerator.hash_size example_minhash) <= 65519)
    by (change (MinHashHashGenerator.hash_size example_minhash) with 2%nat; lia).
  split; [exact example_minhash_wf |].
  split; [exact H1 |].
  split; [exact H2 |].
  exact (minhash_same_tokens_score_one example_minhash _ _ example_minhash_wf H1 H2
           (proj1 example_same_tokens) (proj2 example_same_tokens)).
Defined.

Lemma projections_signature_is_binary_witness :
  snd (RandomProjectionsHashGenerator.hash
         example_projections (RandomProjectionsHashGenerator.Dense [1; -3]%float) None)
  = Ok [0; 1; 0]
  /\ Forall (fun b => b = 0 \/ b = 1) [0; 1; 0].
Proof.
  split; [reflexivity |].
  exact (projections_signature_is_binary
           example_projections (RandomProjectionsHashGenerator.Dense [1; -3]%float)
           None [0; 1; 0] eq_refl).
Defined.

Lemma projections_wrong_dimension_witness :
  RandomProjectionsHashGenerator.wf example_projections
  /\ length [1]%float <> RandomProjectionsHashGenerator.dimension example_projections
  /\ exists msg,
      RandomProjectionsHashGenerator.hash
        example_projections (RandomProjectionsHashGenerator.Dense [1]%float) None
      = (example_projections, Raise (ValueError msg)).
Proof.
  assert (H : length [1]%float
              <> RandomProjectionsHashGenerator.dimension example_projections)
    by (change (RandomProjectionsHashGenerator.dimension example_projections)
          with 2%nat; simpl; lia).
  split; [exact example_projections_wf |].
  split; [exact H |].
  exact (proj1 (projections_wrong_dimension example_projections example_projections_wf)
           [1]%float None H).
Defined.

Lemma example_batch_fits :
  Forall (RandomProjectionsHashGenerator.fits example_projections)
         [RandomProjectionsHashGenerator.Dense [1; -3]%float;
          RandomProjectionsHashGenerator.Sparse
            (mk_spmatrix COO 2 1 [[(0%nat, 1%float)]; [(0%nat, (-3)%float)]])].
Proof. repeat constructor. Defined.

Lemma projections_generate_hashes_witness :
  RandomProjectionsHashGenerator.wf example_projections
  /\ Forall (RandomProjectionsHashGenerator.fits example_projections)
            [RandomProjectionsHashGenerator.Dense [1; -3]%float;
             RandomProjectionsHashGenerator.Sparse
               (mk_spmatrix COO 2 1 [[(0%nat, 1%float)]; [(0%nat, (-3)%float)]])]
  /\ exists sigs,
      snd (RandomProjectionsHashGenerator.generate_hashes
             example_projections
             [RandomProjectionsHashGenerator.Dense [1; -3]%float;
              RandomProjectionsHashGenerator.Sparse
                (mk_spmatrix COO 2 1 [[(0%nat, 1%float)]; [(0%nat, (-3)%float)]])])
      = (sigs, None)
      /\ Forall2 (fun v sig =>
                    snd (RandomProjectionsHashGenerator.hash example_projections v None)
                    = Ok sig
                    /\ length sig
                       = RandomProjectionsHashGenerator.hash_size example_projections)
                 [RandomProjectionsHashGenerator.Dense [1; -3]%float;
                  RandomProjectionsHashGenerator.Sparse
                    (mk_spmatrix COO 2 1 [[(0%nat, 1%float)]; [(0%nat, (-3)%float)]])]
                 sigs.
Proof.
  split; [exact example_projections_wf |].
  split; [exact example_batch_fits |].
  exact (proj2 (projections_generate_hashes example_projections _ example_projections_wf)
           example_batch_fits).
Defined.

Lemma projections_generate_hashes_stops_witness :
  RandomProjectionsHashGenerator.wf example_projections
  /\ length [1]%float <> RandomProjectionsHashGenerator.dimension example_projections
  /\ exists sigs msg,
      snd (RandomProjectionsHashGenerator.generate_hashes
             example_projections
             ([RandomProjectionsHashGenerator.Dense [1; -3]%float]
                ++ RandomProjectionsHashGenerator.Dense [1]%float
                :: [RandomProjectionsHashGenerator.Dense [2; 2]%float]))
      = (sigs, Some (ValueError msg))
      /\ snd (RandomProjectionsHashGenerator.generate_hashes
                example_projections [RandomProjectionsHashGenerator.Dense [1; -3]%float])
         = (sigs, None)
      /\ snd (RandomProjectionsHashGenerator.generate_hashes
                example_projections
                ([RandomProjectionsHashGenerator.Dense [1; -3]%float]
                   ++ RandomProjectionsHashGenerator.Dense [1]%float :: []))
         = snd (RandomProjectionsHashGenerator.generate_hashes
                  example_projections
                  ([RandomProjectionsHashGenerator.Dense [1; -3]%float]
                     ++ RandomProjectionsHashGenerator.Dense [1]%float
                     :: [RandomProjectionsHashGenerator.Dense [2; 2]%float])).
Proof.
  assert (H : length [1]%float
              <> RandomProjectionsHashGenerator.dimension example_projections)
    by (change (RandomProjectionsHashGenerator.dimension example_projections)
          with 2%nat; simpl; lia).
  assert (Hgood : Forall (RandomProjectionsHashGenerator.fits example_projections)
                         [RandomProjectionsHashGenerator.Dense [1; -3]%float])
    by (repeat constructor).
  split; [exact example_projections_wf |].
  split; [exact H |].
  exact (projections_generate_hashes_stops
           example_projections [RandomProjectionsHashGenerator.Dense [1; -3]%float]
           [1]%float [RandomProjectionsHashGenerator.Dense [2; 2]%float] []
           example_projections_wf Hgood H).
Defined.

Lemma minhash_entry_is_least_token_value_witness :
  MinHashHashGenerator.wf example_minhash
  /\ ["a"%string; "b"%string] <> []
  /\ exists sig,
      MinHashHashGenerator.hash example_minhash ["a"%string; "b"%string] None = Ok sig
      /\ forall i, (i < MinHashHashGenerator.hash_size example_minhash)%nat ->
           (exists v, In v ["a"%string; "b"%string]
                      /\ nth i sig 0 = token_value example_minhash i v)
           /\ forall w, In w ["a"%string; "b"%string] ->
                        nth i sig 0 <= token_value example_minhash i w.
Proof.
  assert (Hne : ["a"%string; "b"%string] <> []) by discriminate.
  split; [exact example_minhash_wf |].
  split; [exact Hne |].
  exact (minhash_entry_is_least_token_value example_minhash ["a"%string; "b"%string]
           example_minhash_wf Hne).
Defined.
